(** * dataquality: flagging, description, cleaning and value formatting

    A shallow embedding of the [DataQuality] class of [dataquality.ipynb]
    and of the pandas operations it calls, followed by the properties
    established about it.

    Conventions of the model.
    - A cell holds a Python scalar: [None], a [str], a [bool], an [int]
      or a [float] (binary64, as [spec_float]).  Strings are ASCII text,
      on which [str.isnumeric] and [str.isdecimal] coincide with
      "non-empty and made of the digits 0-9".
    - pandas is a dependency of the class, not part of it.  Module
      [Pandas] gives the behaviour of the operations the class calls, as
      of pandas 1.5 (the class uses [DataFrame.append], which 2.0
      removed).  The column-type inference of pandas is not represented:
      a cell is the Python object the code sees, in a column of objects.
    - [int(s)] and [str(n)] are given without the interpreter's limit on
      the conversion between integers and text ([sys.int_info], 4300
      digits by default from Python 3.11 on); the statements that depend
      on it say so.
    - A DataFrame is a list of column labels over a list of labelled rows.
      Column labels are meant to be distinct and every row as wide as the
      header ([wf_frame]).  A table passed to a method is meant to carry
      at least the columns of the table the instance was built from;
      short of that [flag] and [clean] raise [KeyError].
    - DataFrames are mutable objects: they live in a heap and are passed
      by reference, so that aliasing between [self.flagged] and the value
      returned by [flag] is visible.
    - Of the description table only the column labels and the [count] row
      are kept, which is all the class reads from it. *)

From Stdlib Require Import ZArith List String Ascii Bool Lia SpecFloat DecimalString.
From stdpp Require Import base list strings.

Open Scope string_scope.
Open Scope list_scope.
Open Scope Z_scope.

(** ** Python scalars and the builtins the class uses *)

Module Py.

Inductive value :=
| VNone
| VStr (s : string)
| VBool (b : bool)
| VInt (z : Z)
| VFloat (f : spec_float).

Definition NaN : value := VFloat S754_nan.

Inductive exn :=
| Exception (msg : string)
| KeyError (labels : list string)
| ValueError (msg : string)
| OverflowError (msg : string)
| InvalidReference (r : nat).

Inductive result (A : Type) :=
| Ok (a : A)
| Err (e : exn).
Arguments Ok {A} a.
Arguments Err {A} e.

Definition rbind {A B} (x : result A) (f : A -> result B) : result B :=
  match x with
  | Ok a => f a
  | Err e => Err e
  end.

Fixpoint rmapM {A B} (f : A -> result B) (l : list A) : result (list B) :=
  match l with
  | [] => Ok []
  | x :: l' => rbind (f x) (fun y => rbind (rmapM f l') (fun ys => Ok (y :: ys)))
  end.

(** [re.search("<class '(?P<t>\w+)'>", str(type(value)))]: the name of the
    value's class. *)
Definition type_name (v : value) : string :=
  match v with
  | VNone => "NoneType"
  | VStr _ => "str"
  | VBool _ => "bool"
  | VInt _ => "int"
  | VFloat _ => "float"
  end.

(** binary64 *)
Definition float_of_Z (z : Z) : spec_float := binary_normalize 53 1024 z 0 false.

Definition is_nan (f : spec_float) : bool :=
  match f with
  | S754_nan => true
  | _ => false
  end.

(** [float.is_integer] *)
Definition is_integer (f : spec_float) : bool :=
  match f with
  | S754_zero _ => true
  | S754_finite _ m e => (0 <=? e) || (Z.pos m mod 2 ^ (- e) =? 0)
  | _ => false
  end.

(** [int(f)] on a finite float truncates towards zero. *)
Definition Z_of_float (f : spec_float) : Z :=
  match f with
  | S754_finite s m e =>
      let a := if 0 <=? e then Z.pos m * 2 ^ e else Z.pos m / 2 ^ (- e) in
      if s then - a else a
  | _ => 0
  end.

(** [float(n)] for an [int]: correctly rounded, [OverflowError] when the
    integer is beyond the largest finite float. *)
Definition float_of_int (z : Z) : result spec_float :=
  match float_of_Z z with
  | S754_infinity _ => Err (OverflowError "int too large to convert to float")
  | f => Ok f
  end.

Definition is_digit (c : ascii) : bool :=
  let n := nat_of_ascii c in (48 <=? n)%nat && (n <=? 57)%nat.

Fixpoint all_digits (s : string) : bool :=
  match s with
  | EmptyString => true
  | String c s' => is_digit c && all_digits s'
  end.

(** [str.isnumeric] and [str.isdecimal] on ASCII text. *)
Definition isnumeric (s : string) : bool :=
  match s with
  | EmptyString => false
  | _ => all_digits s
  end.

Definition isdecimal (s : string) : bool := isnumeric s.

Fixpoint digits_value (acc : Z) (s : string) : Z :=
  match s with
  | EmptyString => acc
  | String c s' => digits_value (10 * acc + (Z.of_nat (nat_of_ascii c) - 48)) s'
  end.

(** [int(s)] and [float(s)] for a string of digits. *)
Definition int_of_str (s : string) : Z := digits_value 0 s.
Definition float_of_str (s : string) : spec_float := float_of_Z (int_of_str s).

Definition str_of_int (z : Z) : string := NilZero.string_of_int (Z.to_int z).

(** [str(v)]; the decimal rendering of a float is the interpreter's
    [float.__repr__], taken as a parameter. *)
Definition py_str (repr_float : spec_float -> string) (v : value) : string :=
  match v with
  | VNone => "None"
  | VStr s => s
  | VBool true => "True"
  | VBool false => "False"
  | VInt z => str_of_int z
  | VFloat f => repr_float f
  end.

Definition as_int (v : value) : option Z :=
  match v with
  | VBool b => Some (Z.b2z b)
  | VInt z => Some z
  | _ => None
  end.

Definition float_eq_Z (f : spec_float) (z : Z) : bool :=
  is_integer f && (Z_of_float f =? z).

(** [a == b] *)
Definition py_eq (a b : value) : bool :=
  match a, b with
  | VNone, VNone => true
  | VStr s, VStr t => String.eqb s t
  | VFloat f, VFloat g => SFeqb f g
  | VFloat f, _ => match as_int b with Some z => float_eq_Z f z | None => false end
  | _, VFloat g => match as_int a with Some z => float_eq_Z g z | None => false end
  | _, _ =>
      match as_int a, as_int b with
      | Some x, Some y => x =? y
      | _, _ => false
      end
  end.

End Py.

(** ** The pandas operations the class calls *)

Module Pandas.
Import Py.

Record Row := mkRow { label : nat; cells : list value }.

Record DataFrame := mkDataFrame { columns : list string; rows : list Row }.

(** Missing values: [None] and [NaN]. *)
Definition isna (v : value) : bool :=
  match v with
  | VNone => true
  | VFloat f => is_nan f
  | _ => false
  end.

(** Key equality of the hash tables behind [isin]: Python equality, and
    NaN is the same key as NaN. *)
Definition same_key (a b : value) : bool :=
  py_eq a b ||
  match a, b with
  | VFloat f, VFloat g => is_nan f && is_nan g
  | _, _ => false
  end.

(** Equality of factorized values ([duplicated] on several columns): every
    missing value gets the same code, so missing values match each other;
    other values are hash-table keys. *)
Definition same_code (a b : value) : bool := (isna a && isna b) || same_key a b.

Fixpoint col_pos (c : string) (cols : list string) : option nat :=
  match cols with
  | [] => None
  | c' :: cols' => if String.eqb c c' then Some 0%nat else S <$> col_pos c cols'
  end.

Definition has_column (c : string) (d : DataFrame) : bool :=
  bool_decide (c ∈ columns d).

Definition cell (k : nat) (r : Row) : value := nth k (cells r) VNone.

(** [d[c]] as the list of its values, in row order. *)
Definition column (c : string) (d : DataFrame) : option (list value) :=
  k ← col_pos c (columns d); Some (map (cell k) (rows d)).

Definition wf_frame (d : DataFrame) : bool :=
  bool_decide (NoDup (columns d)) &&
  forallb (fun r => (length (cells r) =? length (columns d))%nat) (rows d).

(** [d.copy(deep=True)]: a new object with the same contents; the caller
    allocates it. *)
Definition copy (d : DataFrame) : DataFrame := d.

Fixpoint assign (f : value -> Row -> Row) (rs : list Row) (vals : list value) : list Row :=
  match rs with
  | [] => []
  | r :: rs' => f (hd NaN vals) r :: assign f rs' (tl vals)
  end.

(** [d[c] = vals]: overwrite the column when the label exists, append it
    after the last column otherwise.  A row without a value gets NaN. *)
Definition set_column (c : string) (vals : list value) (d : DataFrame) : DataFrame :=
  match col_pos c (columns d) with
  | Some k =>
      mkDataFrame (columns d)
        (assign (fun v r => mkRow (label r) (<[k := v]> (cells r))) (rows d) vals)
  | None =>
      mkDataFrame (columns d ++ [c])
        (assign (fun v r => mkRow (label r) (cells r ++ [v])) (rows d) vals)
  end.

Definition map_cells (f : value -> value) (d : DataFrame) : DataFrame :=
  mkDataFrame (columns d) (map (fun r => mkRow (label r) (map f (cells r))) (rows d)).

(** The values of the row in the columns whose label is in [subset], in
    the order of the frame. *)
Fixpoint subset_key (subset cols : list string) (vs : list value) : list value :=
  match cols, vs with
  | c :: cols', v :: vs' =>
      if bool_decide (c ∈ subset) then v :: subset_key subset cols' vs'
      else subset_key subset cols' vs'
  | _, _ => []
  end.

(** Two keys are equal when their values are, column by column, under
    the equality [eqv] of the values. *)
Fixpoint key_eqb (eqv : value -> value -> bool) (k1 k2 : list value) : bool :=
  match k1, k2 with
  | [], [] => true
  | a :: k1', b :: k2' => eqv a b && key_eqb eqv k1' k2'
  | _, _ => false
  end.

(** [keep='first']: a row is marked when an earlier row has the same key. *)
Fixpoint duplicated_scan (eqv : value -> value -> bool) (seen : list (list value))
    (ks : list (list value)) : list bool :=
  match ks with
  | [] => []
  | k :: ks' => existsb (key_eqb eqv k) seen :: duplicated_scan eqv (seen ++ [k]) ks'
  end.

(** How [duplicated] compares two values of a column.  With
    [len(subset) == 1] and distinct column labels the result is
    [d[subset[0]].duplicated()], which hashes the values themselves:
    [None] and NaN are different keys.  Otherwise every selected column
    is factorized, and all its missing values get the same code. *)
Definition code_eq (subset : list string) (d : DataFrame) : value -> value -> bool :=
  match subset with
  | [_] => if bool_decide (NoDup (columns d)) then same_key else same_code
  | _ => same_code
  end.

(** [d.duplicated(subset=subset)].  An empty frame gives an empty series;
    labels of [subset] that are no column raise [KeyError]; on the
    several-column path the per-column codes are unpacked with
    [labels, shape = map(list, zip( * ...))], which raises [ValueError]
    when no column is selected. *)
Definition duplicated (subset : list string) (d : DataFrame) : result (list bool) :=
  match rows d, columns d with
  | [], _ | _, [] => Ok []
  | _, _ =>
      match filter (fun c => c ∉ columns d) subset with
      | [] =>
          match filter (fun c => c ∈ subset) (columns d) with
          | [] => Err (ValueError "not enough values to unpack (expected 2, got 0)")
          | _ => Ok (duplicated_scan (code_eq subset d) []
                       (map (fun r => subset_key subset (columns d) (cells r)) (rows d)))
          end
      | missing => Err (KeyError missing)
      end
  end.

(** [s.replace({True: 1, False: 0})] on a boolean series. *)
Definition flags_of (bs : list bool) : list value := map (fun b : bool => VInt (Z.b2z b)) bs.

(** [d.isnull().sum(axis=1)] *)
Definition null_counts (d : DataFrame) : list value :=
  map (fun r => VInt (Z.of_nat (length (filter (fun v => isna v = true) (cells r))))) (rows d).

(** [d.replace({False: 0, True: 1, "No": 0, "Yes": 1, "None": None})] *)
Definition replace_value (v : value) : value :=
  match v with
  | VBool b => VInt (Z.b2z b)
  | VStr s =>
      if String.eqb s "No" then VInt 0
      else if String.eqb s "Yes" then VInt 1
      else if String.eqb s "None" then VNone
      else v
  | _ => v
  end.

Definition replace (d : DataFrame) : DataFrame := map_cells replace_value d.

(** The [count] row of [d.describe(include='all', ...)]: per column, the
    number of values that are not missing. *)
Definition count_of (c : string) (d : DataFrame) : nat :=
  match column c d with
  | Some vs => length (filter (fun v => isna v = false) vs)
  | None => 0
  end.

(** A description: column labels with their [count]; [None] where the
    table holds NaN. *)
Definition Description := list (string * option nat).

Definition describe (d : DataFrame) : result Description :=
  match columns d with
  | [] => Err (ValueError "Cannot describe a DataFrame without columns")
  | cols => Ok (map (fun c => (c, Some (count_of c d))) cols)
  end.

Definition description_columns (desc : Description) : list string := map fst desc.

(** [desc.append(series.rename("dtypes"))] where the series is indexed by
    [labels]: a row is added, and the labels that are no column of [desc]
    become new columns, after the existing ones and in the order of
    [labels], NaN in the existing rows. *)
Definition append_row (desc : Description) (labels : list string) : Description :=
  desc ++ map (fun c => (c, None))
            (filter (fun c => c ∉ description_columns desc) labels).

(** [desc.loc["count", c]] *)
Fixpoint loc_count (c : string) (desc : Description) : option nat :=
  match desc with
  | [] => None
  | (c', n) :: desc' => if String.eqb c c' then n else loc_count c desc'
  end.

(** [d.loc[:, labels]]: [KeyError] when a label is no column. *)
Definition loc_columns (labels : list string) (d : DataFrame) : result DataFrame :=
  match filter (fun c => c ∉ columns d) labels with
  | [] =>
      Ok (mkDataFrame labels
            (map (fun r => mkRow (label r)
                             (map (fun c => match col_pos c (columns d) with
                                            | Some k => cell k r
                                            | None => NaN
                                            end) labels))
                 (rows d)))
  | missing => Err (KeyError missing)
  end.

(** [v in vals] for [Series.isin]. *)
Definition isin (v : value) (vals : list value) : bool := existsb (same_key v) vals.

(** [d[mask]] with the mask computed row by row. *)
Definition select_rows (keep : Row -> bool) (d : DataFrame) : DataFrame :=
  mkDataFrame (columns d) (filter (fun r => keep r = true) (rows d)).

(** What [fillna] puts in a cell. *)
Definition fill_with (fill x : value) : value := if isna x then fill else x.

(** [d.fillna(value=v)]: a new frame; [ValueError] when [v] is [None]. *)
Definition fillna (v : value) (d : DataFrame) : result DataFrame :=
  match v with
  | VNone => Err (ValueError "Must specify a fill 'value' or 'method'.")
  | _ => Ok (map_cells (fill_with v) d)
  end.

End Pandas.

(** ** The class *)

Module DQ.
Import Py Pandas.

(** DataFrames are heap objects; a reference is a position in the heap. *)
Abbreviation ref := nat (only parsing).
Abbreviation heap := (list DataFrame) (only parsing).

(** Computations read and update the heap and may raise; the heap reached
    when the exception is raised is kept, since updates in place done
    before it stay visible to the caller. *)
Definition M (A : Type) : Type := heap -> result A * heap.

Definition ret {A} (a : A) : M A := fun h => (Ok a, h).

Definition bind {A B} (c : M A) (k : A -> M B) : M B :=
  fun h =>
    match c h with
    | (Ok a, h') => k a h'
    | (Err e, h') => (Err e, h')
    end.

Definition raise {A} (e : exn) : M A := fun h => (Err e, h).

Definition lift {A} (x : result A) : M A := fun h => (x, h).

Notation "'do' x <- c ;; k" := (bind c (fun x => k))
  (at level 10, x name, c at level 99, k at level 200).
Notation "'do' ' p <- c ;; k" := (bind c (fun x => match x with p => k end))
  (at level 10, p pattern, c at level 99, k at level 200).

Definition deref (r : ref) : M DataFrame :=
  fun h =>
    match h !! r with
    | Some d => (Ok d, h)
    | None => (Err (InvalidReference r), h)
    end.

Definition alloc (d : DataFrame) : M ref := fun h => (Ok (length h), h ++ [d]).

Definition store (r : ref) (d : DataFrame) : M unit := fun h => (Ok tt, <[r := d]> h).

Definition _METHODS : list string := ["duplicates"; "null"].

Record DataQuality := mkDataQuality {
  df : ref;
  methods : list string;
  flagged : ref;
  description : Description;
  unique_identifiers : list string
}.

(** The [table] argument of the constructor: a DataFrame object, a [dict]
    (given by the frame [pandas.DataFrame(table)] builds from it), or
    anything else. *)
Inductive table_arg :=
| TDataFrame (r : ref)
| TDict (built : DataFrame)
| TOther.

(** An optional [df] argument: [None], a DataFrame object, or an object
    that is neither. *)
Inductive df_arg :=
| ArgNone
| ArgDataFrame (r : ref)
| ArgOther.

Definition is_none (a : df_arg) : bool :=
  match a with
  | ArgNone => true
  | _ => false
  end.

(** [max(values)], with the order of Python on counts that may be NaN. *)
Definition py_gt (x m : option nat) : bool :=
  match x, m with
  | Some a, Some b => (b <? a)%nat
  | _, _ => false
  end.

Definition py_max (l : list (option nat)) : result (option nat) :=
  match l with
  | [] => Err (ValueError "max() arg is an empty sequence")
  | x :: l' => Ok (fold_left (fun m y => if py_gt y m then y else m) l' x)
  end.

(** [n >= 0.5 * count_max]; on counts the product is exact. *)
Definition ge_half (n count_max : option nat) : bool :=
  match n, count_max with
  | Some a, Some b => (b <=? 2 * a)%nat
  | _, _ => false
  end.

(** [self.description.loc["count", column]], for a label that a single
    column of the description carries. *)
Definition loc_count_checked (c : string) (desc : Description) : result (option nat) :=
  if bool_decide (c ∈ description_columns desc) then Ok (loc_count c desc)
  else Err (KeyError [c]).

Definition __self_or_none__ (self : DataQuality) (dataframe : df_arg)
  : M (ref * Description) :=
  do flagged <- match dataframe with
                | ArgDataFrame r => (do d <- deref r ;; alloc (copy d))
                | _ => ret (flagged self)
                end ;;
  do fd <- deref flagged ;;
  do description <- lift (Pandas.describe (replace fd)) ;;
  do sd <- deref (df self) ;;
  ret (flagged, append_row description (columns sd)).

(** The loop of the constructor that collects the identifier columns. *)
Fixpoint collect_identifiers (first : string) (desc : Description)
    (count_max : option nat) (cols : list string) : result (list string) :=
  match cols with
  | [] => Ok []
  | c :: cols' =>
      rbind (if String.eqb c first then Ok false
             else rbind (loc_count_checked c desc) (fun n => Ok (ge_half n count_max)))
        (fun keep =>
           rbind (collect_identifiers first desc count_max cols')
             (fun rest => Ok (if keep : bool then c :: rest else rest)))
  end.

(** The attributes are set one after the other; [flagged], [description]
    and [unique_identifiers] hold placeholders until they are assigned and
    are not read before. *)
Definition __init__ (table : table_arg) (methods : option (list string))
  : M DataQuality :=
  let methods := default _METHODS methods in
  do df <- match table with
           | TDataFrame r => ret r
           | TDict built => alloc built
           | TOther =>
               raise (Exception "Provided table is neither a dictionary nor a dataframe")
           end ;;
  if forallb (fun m => bool_decide (m ∈ _METHODS)) methods then
    do ' (flagged, description) <-
      __self_or_none__ (mkDataQuality df methods df [] []) (ArgDataFrame df) ;;
    do count_max <- lift (py_max (map snd description)) ;;
    do sd <- deref df ;;
    do ids <- lift (match columns sd with
                    | [] => Ok []
                    | first :: _ =>
                        collect_identifiers first description count_max (columns sd)
                    end) ;;
    ret (mkDataQuality df methods flagged description ids)
  else raise (Exception "Not all requested methods are available").

(** [values_to_check] is given by its keys: the class calls this with the
    [dict] [columns_dtypes] only. *)
Definition __check_with_headers__ (values_to_check : list string) (dataframe : DataFrame)
  : result unit :=
  if existsb (fun key => bool_decide (key ∉ columns dataframe)) values_to_check
  then Err (Exception "Provided values(s) not in the table headers")
  else Ok tt.

Definition flag (self : DataQuality) (df : df_arg) : M (ref * DataQuality) :=
  do ' (flagged, description) <- __self_or_none__ self df ;;
  do _ <- (if bool_decide ("duplicates" ∈ methods self) then
             do d <- deref flagged ;;
             do dup <- lift (duplicated (unique_identifiers self) d) ;;
             store flagged (set_column "duplicates" (flags_of dup) d)
           else ret tt) ;;
  do _ <- (if bool_decide ("null" ∈ methods self) then
             do d <- deref flagged ;;
             store flagged (set_column "null" (null_counts d) d)
           else ret tt) ;;
  ret (flagged,
       if is_none df
       then mkDataQuality (DQ.df self) (methods self) flagged (DQ.description self)
              (unique_identifiers self)
       else self).

Definition describe (self : DataQuality) (df : df_arg) : M (Description * DataQuality) :=
  do ' (flagged, description) <- __self_or_none__ self df ;;
  ret (description,
       if is_none df
       then mkDataQuality (DQ.df self) (methods self) (DQ.flagged self) description
              (unique_identifiers self)
       else self).

(** The cell of the row under the column labelled [c]. *)
Definition cell_of (c : string) (d : DataFrame) (r : Row) : value :=
  match col_pos c (columns d) with
  | Some k => cell k r
  | None => NaN
  end.

(** [flagged.loc[flagged.duplicates == 0, id_column]] *)
Definition unique_id (id_column : string) (fd : DataFrame) : list value :=
  map (cell_of id_column fd)
    (filter (fun r => py_eq (cell_of "duplicates" fd r) (VInt 0) = true) (rows fd)).

Definition clean (self : DataQuality) (df : df_arg) : M (ref * DataQuality) :=
  do ' (flagged, description) <- __self_or_none__ self df ;;
  do fd <- deref flagged ;;
  do cleaned <- lift (loc_columns (description_columns description) (copy fd)) ;;
  do cleaned <- (if has_column "duplicates" fd then
                   match columns fd with
                   | id_column :: _ =>
                       ret (select_rows
                              (fun r => isin (cell_of id_column cleaned r)
                                          (unique_id id_column fd))
                              cleaned)
                   | [] => raise (Exception "index 0 is out of bounds for axis 0 with size 0")
                   end
                 else ret cleaned) ;;
  do out <- alloc cleaned ;;
  ret (out,
       if is_none df
       then mkDataQuality (DQ.df self) (methods self) (DQ.flagged self) description
              (unique_identifiers self)
       else self).

Section Formatter.

(** [float.__repr__] of the interpreter. *)
Variable repr_float : spec_float -> string.

(** [value is None or value == '' or value != value], where [''] is the
    empty string. *)
Definition is_empty_value (v : value) : bool :=
  match v with
  | VNone => true
  | VStr s => String.eqb s EmptyString
  | VFloat f => is_nan f
  | _ => false
  end.

Definition not_converted (column type_current shown dtype_requested : string) : exn :=
  Exception (column +:+ " " +:+ type_current +:+ " " +:+ shown +:+
             " not converted into " +:+ dtype_requested).

Definition dtype_change (fill_empty : value) (v : value) (column dtype_requested : string)
  : result value :=
  if is_empty_value v then Ok fill_empty
  else
    let type_current := type_name v in
    if String.eqb type_current dtype_requested then Ok v
    else
      let other :=
        if String.eqb dtype_requested "str" then Ok (VStr (py_str repr_float v))
        else Err (not_converted column type_current (py_str repr_float v) dtype_requested) in
      match v with
      | VStr s =>
          if String.eqb dtype_requested "int" && isnumeric s then Ok (VInt (int_of_str s))
          else if String.eqb dtype_requested "float" && isdecimal s
               then Ok (VFloat (float_of_str s))
          else if String.eqb dtype_requested "yn" then
            if String.eqb s "1" || String.eqb s "True" then Ok (VStr "Yes")
            else if String.eqb s "0" || String.eqb s "False" then Ok (VStr "No")
            else Ok v
          else Ok v
      | VBool b =>
          if String.eqb dtype_requested "yn" then
            if b then Ok (VStr "Yes") else Ok (VStr "No")
          else Ok v
      | VInt z =>
          if String.eqb dtype_requested "float"
          then rbind (float_of_int z) (fun f => Ok (VFloat f))
          else other
      | VFloat f =>
          if String.eqb dtype_requested "int" && is_integer f then Ok (VInt (Z_of_float f))
          else other
      | VNone => other
      end.

(** The loop over [columns_dtypes.items()]: each column is replaced in
    place by its converted values, kept as the Python objects
    [dtype_change] returns (the type pandas then infers for the column
    is not represented). *)
Fixpoint format_columns (r : ref) (fill_empty : value)
    (columns_dtypes : list (string * string)) : M unit :=
  match columns_dtypes with
  | [] => ret tt
  | (column, column_dtype) :: rest =>
      do d <- deref r ;;
      do vals <- lift (match Pandas.column column d with
                       | Some vs =>
                           rmapM (fun x => dtype_change fill_empty x column column_dtype) vs
                       | None => Err (KeyError [column])
                       end) ;;
      do _ <- store r (set_column column vals d) ;;
      format_columns r fill_empty rest
  end.

(** [columns_dtypes] is a [dict], given by its items in order.  No
    attribute of the instance is assigned. *)
Definition values_format (self : DataQuality) (columns_dtypes : list (string * string))
    (df : df_arg) (fill_empty : value) : M (ref * DataQuality) :=
  let r := match df with
           | ArgDataFrame r => r
           | _ => DQ.df self
           end in
  do d <- deref r ;;
  do _ <- lift (__check_with_headers__ (map fst columns_dtypes) d) ;;
  do _ <- format_columns r fill_empty columns_dtypes ;;
  do d <- deref r ;;
  do filled <- lift (fillna fill_empty d) ;;
  do out <- alloc filled ;;
  ret (out, self).

End Formatter.

End DQ.

(** ** Vocabulary of the statements *)

Import Py Pandas DQ.


(** The frame a method works on: the one passed, else the internal
    flagged table. *)
Definition target (self : DataQuality) (a : df_arg) (h : heap) : option DataFrame :=
  match a with
  | ArgDataFrame r => h !! r
  | _ => h !! flagged self
  end.

(** The object [__self_or_none__] hands back and the heap it leaves: a
    fresh copy of the frame passed, else the internal object itself. *)
Definition resolved (self : DataQuality) (a : df_arg) (h : heap) (fd : DataFrame)
  : ref * heap :=
  match a with
  | ArgDataFrame _ => (length h, h ++ [fd])
  | _ => (flagged self, h)
  end.

(** The description of a frame after normalisation. *)
Definition counts (fd : DataFrame) : Description :=
  map (fun c => (c, Some (count_of c (replace fd)))) (columns fd).

Definition first_value (r : Row) : value := cell 0 r.

Definition flag_is_zero (fd : DataFrame) (r : Row) : Prop :=
  py_eq (cell_of "duplicates" fd r) (VInt 0) = true.

(** Some row whose [duplicates] flag is 0 has the same first-column value. *)
Definition shares_id_with_unflagged (fd : DataFrame) (r : Row) : Prop :=
  Exists (fun r0 => flag_is_zero fd r0 ∧ same_key (first_value r) (first_value r0) = true)
         (rows fd).

#[global] Instance shares_id_with_unflagged_dec fd r :
  Decision (shares_id_with_unflagged fd r).
Proof. unfold shares_id_with_unflagged, flag_is_zero. apply _. Defined.

(** ** Sessions on concrete tables *)

(** [dq = DataQuality(table, methods); dq.flag(); dq.clean()], returning
    the flagged and the cleaned frame. *)
Definition flag_then_clean (table : DataFrame) (methods : option (list string))
  : M (ref * ref) :=
  do self <- __init__ (TDict table) methods ;;
  do ' (fl, self) <- flag self ArgNone ;;
  do ' (cl, self) <- clean self ArgNone ;;
  ret (fl, cl).

(** [dq = DataQuality(table, methods); dq.flag()], returning the instance
    and the flagged frame. *)
Definition init_then_flag (table : DataFrame) (methods : option (list string))
  : M (DataQuality * ref) :=
  do self <- __init__ (TDict table) methods ;;
  do ' (fl, self) <- flag self ArgNone ;;
  ret (self, fl).

(** Runs a session from the empty heap and reads the two frames it
    returns. *)
Definition frames_of (c : M (ref * ref)) : result (option DataFrame * option DataFrame) :=
  match c [] with
  | (Ok (a, b), h) => Ok (h !! a, h !! b)
  | (Err e, _) => Err e
  end.

(** The table of the notebook's usage example. *)
Definition notebook_table : DataFrame :=
  mkDataFrame ["hyperlink"; "type_of_property"; "postcode"; "garden"; "surface"]
    [mkRow 0 [VStr "http"; VStr "house"; VStr "1000"; VBool true; VInt 1];
     mkRow 1 [VStr "htt"; VStr "apartment"; VStr "1050"; VBool false; VInt 2];
     mkRow 2 [VStr "http2"; VStr "apartment"; VStr "1050"; VBool false; VInt 2];
     mkRow 3 [VStr "htt2"; VNone; VNone; VNone; VInt 4];
     mkRow 4 [VStr "http"; VNone; VNone; VNone; VInt 3]].


(** [{"id": ["a", "b"], "x": ["p", "q"]}] *)
Definition two_rows : DataFrame :=
  mkDataFrame ["id"; "x"]
    [mkRow 0 [VStr "a"; VStr "p"]; mkRow 1 [VStr "b"; VStr "q"]].

(** [{"id": ["a", "b"]}] *)
Definition only_ids : DataFrame :=
  mkDataFrame ["id"] [mkRow 0 [VStr "a"]; mkRow 1 [VStr "b"]].

(** [{"id": ["a", "b", "c", "d"], "x": ["p", "q", None, None]}] *)
Definition null_identifiers : DataFrame :=
  mkDataFrame ["id"; "x"]
    [mkRow 0 [VStr "a"; VStr "p"]; mkRow 1 [VStr "b"; VStr "q"];
     mkRow 2 [VStr "c"; VNone]; mkRow 3 [VStr "d"; VNone]].

(** [{"id": ["a", "b", "c", "d"], "x": ["p", "q", None, float("nan")]}] *)
Definition none_then_nan : DataFrame :=
  mkDataFrame ["id"; "x"]
    [mkRow 0 [VStr "a"; VStr "p"]; mkRow 1 [VStr "b"; VStr "q"];
     mkRow 2 [VStr "c"; VNone]; mkRow 3 [VStr "d"; NaN]].


(** The frame [flag] leaves in the flagged object, in terms of the frame
    it starts from. *)
Definition flagged_frame (self : DataQuality) (fd : DataFrame) : result DataFrame :=
  rbind (if bool_decide ("duplicates" ∈ methods self)
         then rbind (duplicated (unique_identifiers self) fd)
                (fun dup => Ok (set_column "duplicates" (flags_of dup) fd))
         else Ok fd)
    (fun fd1 => Ok (if bool_decide ("null" ∈ methods self)
                    then set_column "null" (null_counts fd1) fd1
                    else fd1)).

(** The instance after a call: the attributes assigned on success, the
    instance as it was when the call raised. *)
Definition self_after {A} (self : DataQuality) (res : result (A * DataQuality))
  : DataQuality :=
  match res with
  | Ok (_, self') => self'
  | Err _ => self
  end.

(** Every object of [h] is still there, with the same contents, in [h']. *)
Definition objects_kept (h h' : heap) : Prop :=
  ∀ r d, h !! r = Some d → h' !! r = Some d.

(** The frame the constructor's [table] argument stands for. *)
Definition table_frame (table : table_arg) (h : heap) : option DataFrame :=
  match table with
  | TDataFrame r => h !! r
  | TDict built => Some built
  | TOther => None
  end.

(** The number of rows whose value under [c] is not missing once the
    frame is normalised ([True]/[False], ["Yes"]/["No"] to 1/0 and
    ["None"] to a missing value). *)
Definition non_null_count (c : string) (d : DataFrame) : nat :=
  length (filter (fun r => isna (replace_value (cell_of c d r)) = false) (rows d)).

(** Where the constructor keeps its table: the object passed, or a new
    object for the frame built from a [dict]. *)
Definition table_ref (table : table_arg) (h : heap) : ref :=
  match table with
  | TDataFrame r => r
  | _ => length h
  end.

Definition table_heap (table : table_arg) (h : heap) : heap :=
  match table with
  | TDict built => h ++ [built]
  | _ => h
  end.

Definition methods_available (ms : option (list string)) : bool :=
  forallb (fun m => bool_decide (m ∈ _METHODS)) (default _METHODS ms).

(** The object [values_format] works on. *)
Definition format_target (self : DataQuality) (a : df_arg) : ref :=
  match a with
  | ArgDataFrame r => r
  | _ => df self
  end.

(** [dq = DataQuality(table); t = dq.values_format(cd, fill_empty=fill)],
    returning the table of the instance and [t]. *)
Definition format_once (repr_float : spec_float -> string) (table : DataFrame)
    (columns_dtypes : list (string * string)) (fill_empty : value) : M (ref * ref) :=
  do self <- __init__ (TDict table) None ;;
  do ' (t, self) <- values_format repr_float self columns_dtypes ArgNone fill_empty ;;
  ret (df self, t).

(** A rendering of floats for the sessions below, none of which turns a
    float into text. *)
Definition repr_unused : spec_float -> string := fun _ => "nan".

(** [{"n": ["7", None]}] *)
Definition missing_number : DataFrame :=
  mkDataFrame ["n"] [mkRow 0 [VStr "7"]; mkRow 1 [VNone]].

(** [{"n": ["abc"], "b": [True]}] *)
Definition letters_and_truth : DataFrame :=
  mkDataFrame ["n"; "b"] [mkRow 0 [VStr "abc"; VBool true]].


(** An instance over [table] and its flagged copy, as objects 0 and 1. *)
Definition instance_with (identifiers : list string) : DataQuality :=
  mkDataQuality 0 _METHODS 1 [] identifiers.

(** ** Vocabulary of the further properties *)


(** [{"id": ["a"], "z": ["p"], "x": ["q"]}] *)
Definition three_columns : DataFrame :=
  mkDataFrame ["id"; "z"; "x"] [mkRow 0 [VStr "a"; VStr "p"; VStr "q"]].



(** The messages of the exceptions the class raises itself. *)
Definition not_a_table : string := "Provided table is neither a dictionary nor a dataframe".
Definition methods_not_available : string := "Not all requested methods are available".
Definition not_in_headers : string := "Provided values(s) not in the table headers".

(** Text made of ASCII characters only. *)
Definition ascii_text (s : string) : bool :=
  forallb (fun c => (nat_of_ascii c <? 128)%nat) (list_ascii_of_string s).

(** The interpreter's default limit on the number of digits in a
    conversion between [int] and [str] (Python 3.11 and later; earlier
    versions have none). *)
Definition max_str_digits : nat := 4300.

(** The values on which the builtins are as the model gives them: text
    is ASCII, numeric text has no more digits than the limit, and an
    integer has no more decimal digits than the limit. *)
Definition within_limits (v : value) : Prop :=
  match v with
  | VStr s => ascii_text s = true ∧ (isnumeric s = true → (String.length s ≤ max_str_digits)%nat)
  | VInt z => Z.abs z < 10 ^ Z.of_nat max_str_digits
  | _ => True
  end.

From Stdlib Require DecimalPos.

(** * Properties *)

(** ** Lists *)

Lemma filter_none {A} (P : A → Prop) `{∀ x, Decision (P x)} (l : list A) :
  (∀ x, x ∈ l → ¬ P x) → filter P l = [].
Proof.
  intros Hall. destruct (filter P l) as [|x l'] eqn:E; [done|].
  assert (x ∈ filter P l) as [HP Hin]%list_elem_of_filter by (rewrite E; left).
  by destruct (Hall x Hin).
Qed.

Lemma length_filter_map {A B} (g : A → B) (P : B → Prop) `{∀ x, Decision (P x)} l :
  length (filter P (map g l)) = length (filter (fun x => P (g x)) l).
Proof.
  induction l as [|x l IH]; [done|].
  simpl. rewrite !filter_cons. destruct (decide (P (g x))); simpl; by rewrite IH.
Qed.


Lemma fold_max_le ns n x :
  (fold_left Nat.max ns n ≤ x ↔ n ≤ x ∧ ∀ y, y ∈ ns → y ≤ x)%nat.
Proof.
  revert n. induction ns as [|m ns IH]; intros n; simpl.
  - split; [intros ?; split; [done | by intros ? ?%not_elem_of_nil] | by intros [? _]].
  - rewrite IH. split.
    + intros [Hm Hall]. split; [lia|]. intros y [->|?]%elem_of_cons; [lia | by apply Hall].
    + intros [Hn Hall]. split.
      * pose proof (Hall m ltac:(left)). lia.
      * intros y Hy. apply Hall. by right.
Qed.

Lemma rmapM_Forall2 {A B} (f : A → result B) l ys :
  rmapM f l = Ok ys → Forall2 (fun x y => f x = Ok y) l ys.
Proof.
  revert ys. induction l as [|x l IH]; intros ys; simpl.
  - intros [= <-]. constructor.
  - destruct (f x) as [y|e] eqn:Ex; [|done]. simpl.
    destruct (rmapM f l) as [ys'|e]; [|done]. simpl.
    intros [= <-]. constructor; [done | by apply IH].
Qed.

Lemma rmapM_fixed {A} (f : A → result A) l :
  Forall (fun x => f x = Ok x) l → rmapM f l = Ok l.
Proof.
  induction 1 as [|x l Hx _ IH]; [done|]. simpl. by rewrite Hx, IH.
Qed.

(** ** Column positions and well-formed frames *)

Lemma col_pos_lookup c cols k : col_pos c cols = Some k → cols !! k = Some c.
Proof.
  revert k; induction cols as [|c' cols IH]; intros k; simpl; [done|].
  destruct (String.eqb_spec c c') as [->|Hne].
  - by intros [= <-].
  - destruct (col_pos c cols) as [k'|]; simpl; [|done].
    intros [= <-]. by apply IH.
Qed.

Lemma col_pos_None c cols : col_pos c cols = None ↔ c ∉ cols.
Proof.
  induction cols as [|c' cols IH]; simpl.
  - split; [intros _; apply not_elem_of_nil | done].
  - rewrite not_elem_of_cons. destruct (String.eqb_spec c c') as [->|Hne].
    + split; [done | intros [? _]; done].
    + destruct (col_pos c cols); simpl; split; try done.
      * intros [_ H]. by apply IH in H.
      * intros _. split; [done | by apply IH].
Qed.

Lemma col_pos_is_Some c cols : c ∈ cols → is_Some (col_pos c cols).
Proof.
  intros Hin. destruct (col_pos c cols) eqn:E; [eauto|].
  by apply col_pos_None in E.
Qed.


Lemma col_pos_app_l c cols cols' k :
  col_pos c cols = Some k → col_pos c (cols ++ cols') = Some k.
Proof.
  revert k. induction cols as [|c0 cols IH]; intros k; simpl; [done|].
  destruct (String.eqb c c0); [done|].
  destruct (col_pos c cols) as [k'|]; simpl; [|done].
  intros [= <-]. by rewrite (IH k').
Qed.

Lemma col_pos_snoc c cols :
  col_pos c cols = None → col_pos c (cols ++ [c]) = Some (length cols).
Proof.
  induction cols as [|c0 cols IH]; simpl.
  - by rewrite String.eqb_refl.
  - destruct (String.eqb c c0); [done|].
    destruct (col_pos c cols); simpl; [done|]. intros _. by rewrite IH.
Qed.

Lemma col_pos_snoc_ne c c' cols :
  c' ≠ c → col_pos c' cols = None → col_pos c' (cols ++ [c]) = None.
Proof.
  intros Hne. induction cols as [|c0 cols IH]; simpl.
  - by destruct (String.eqb_spec c' c).
  - destruct (String.eqb c' c0); [done|].
    destruct (col_pos c' cols); simpl; [done|]. intros _. by rewrite IH.
Qed.

Lemma wf_frame_NoDup d : wf_frame d = true → NoDup (columns d).
Proof. unfold wf_frame. intros [H _]%andb_prop. by apply bool_decide_eq_true in H. Qed.

Lemma wf_frame_width d r :
  wf_frame d = true → r ∈ rows d → length (cells r) = length (columns d).
Proof.
  unfold wf_frame. intros [_ H]%andb_prop Hin.
  rewrite forallb_forall in H. apply list_elem_of_In in Hin.
  specialize (H r Hin). by apply Nat.eqb_eq in H.
Qed.

Lemma wf_frame_intro d :
  NoDup (columns d) → (∀ r, r ∈ rows d → length (cells r) = length (columns d)) →
  wf_frame d = true.
Proof.
  intros Hnd Hw. unfold wf_frame. apply andb_true_intro. split.
  - by apply bool_decide_eq_true.
  - apply forallb_forall. intros r Hr%list_elem_of_In. by apply Nat.eqb_eq, Hw.
Qed.

Lemma rows_lookup_width d j r :
  wf_frame d = true → rows d !! j = Some r → length (cells r) = length (columns d).
Proof. intros Hwf H. apply wf_frame_width; [done|]. by eapply list_elem_of_lookup_2. Qed.




(** ** Setting a column and mapping over cells *)

Lemma assign_lookup f rs vals j r :
  rs !! j = Some r → assign f rs vals !! j = Some (f (nth j vals NaN) r).
Proof.
  revert vals j. induction rs as [|r0 rs IH]; intros vals j; [done|].
  destruct j as [|j]; simpl.
  - intros [= ->]. by destruct vals.
  - intros H. rewrite (IH (tl vals) j H). by destruct vals; [destruct j|].
Qed.

Lemma assign_length f rs vals : length (assign f rs vals) = length rs.
Proof. revert vals. induction rs; intros; simpl; [done|]. by rewrite IHrs. Qed.

Lemma assign_same k rs :
  assign (fun v r => mkRow (label r) (<[k := v]> (cells r))) rs (map (cell k) rs) = rs.
Proof.
  induction rs as [|r rs IH]; [done|]. simpl. rewrite IH. f_equal.
  destruct r as [l vs]. unfold cell. simpl. f_equal.
  destruct (vs !! k) as [v|] eqn:Hv.
  - rewrite (nth_lookup_Some _ _ _ _ Hv). by apply list_insert_id.
  - apply list_insert_ge. by apply lookup_ge_None.
Qed.

Lemma set_column_row c vals d j r :
  rows d !! j = Some r →
  rows (set_column c vals d) !! j =
    Some (mkRow (label r)
            match col_pos c (columns d) with
            | Some k => <[k := nth j vals NaN]> (cells r)
            | None => cells r ++ [nth j vals NaN]
            end).
Proof.
  intros H. unfold set_column.
  destruct (col_pos c (columns d)); simpl; by rewrite (assign_lookup _ _ _ _ _ H).
Qed.

Lemma set_column_rows_length c vals d :
  length (rows (set_column c vals d)) = length (rows d).
Proof. unfold set_column. destruct (col_pos c (columns d)); simpl; apply assign_length. Qed.

Lemma set_column_columns c vals d k :
  col_pos c (columns d) = Some k → columns (set_column c vals d) = columns d.
Proof. intros H. unfold set_column. by rewrite H. Qed.



Lemma set_column_wf c vals d : wf_frame d = true → wf_frame (set_column c vals d) = true.
Proof.
  intros Hwf. apply wf_frame_intro.
  - unfold set_column. destruct (col_pos c (columns d)) eqn:E; simpl.
    + by apply wf_frame_NoDup.
    + apply NoDup_app. split; [by apply wf_frame_NoDup|]. split; [|apply NoDup_singleton].
      intros x Hx ->%list_elem_of_singleton. by apply col_pos_None in E.
  - intros r' [j Hj]%list_elem_of_lookup_1.
    assert (is_Some (rows d !! j)) as [r Hr].
    { apply lookup_lt_is_Some. rewrite <- (set_column_rows_length c vals d).
      by eapply lookup_lt_Some. }
    rewrite (set_column_row _ _ _ _ _ Hr) in Hj. injection Hj as <-.
    pose proof (rows_lookup_width _ _ _ Hwf Hr) as Hlen.
    unfold set_column. destruct (col_pos c (columns d)); simpl.
    + by rewrite length_insert.
    + rewrite !length_app. simpl. lia.
Qed.

Lemma column_Some c d vs :
  column c d = Some vs →
  ∃ k, col_pos c (columns d) = Some k ∧ vs = map (cell k) (rows d).
Proof.
  unfold column. destruct (col_pos c (columns d)) as [k|]; [|done].
  simpl. intros [= <-]. by exists k.
Qed.

Lemma column_length c d vs : column c d = Some vs → length vs = length (rows d).
Proof. intros (k & _ & ->)%column_Some. apply length_map. Qed.

Lemma column_set_column_eq c ys d vs :
  wf_frame d = true → column c d = Some vs → length ys = length (rows d) →
  column c (set_column c ys d) = Some ys.
Proof.
  intros Hwf (k & Hk & _)%column_Some Hlen.
  unfold column. rewrite (set_column_columns _ _ _ _ Hk), Hk. simpl. f_equal.
  apply list_eq. intros j. rewrite list_lookup_fmap.
  destruct (rows d !! j) as [r|] eqn:Hr.
  - rewrite (set_column_row _ _ _ _ _ Hr), Hk. simpl.
    destruct (ys !! j) as [y|] eqn:Hy.
    + rewrite (nth_lookup_Some _ _ _ _ Hy). f_equal. unfold cell. simpl.
      apply nth_lookup_Some, list_lookup_insert_eq.
      rewrite (rows_lookup_width _ _ _ Hwf Hr).
      by apply col_pos_lookup, lookup_lt_Some in Hk.
    + apply lookup_ge_None in Hy. apply lookup_lt_Some in Hr. lia.
  - apply lookup_ge_None in Hr.
    rewrite (proj2 (lookup_ge_None _ _)) by (rewrite set_column_rows_length; lia).
    simpl. symmetry. apply lookup_ge_None. lia.
Qed.

Lemma column_set_column_ne c c' ys d k :
  c' ≠ c → col_pos c (columns d) = Some k →
  column c' (set_column c ys d) = column c' d.
Proof.
  intros Hne Hk. unfold column. rewrite (set_column_columns _ _ _ _ Hk).
  destruct (col_pos c' (columns d)) as [k'|] eqn:Hk'; [|done]. simpl. f_equal.
  assert (k' ≠ k) as Hkk.
  { intros ->. apply col_pos_lookup in Hk, Hk'. congruence. }
  apply list_eq. intros j. rewrite !list_lookup_fmap.
  destruct (rows d !! j) as [r|] eqn:Hr.
  - rewrite (set_column_row _ _ _ _ _ Hr), Hk. simpl. f_equal. unfold cell. simpl.
    rewrite !nth_lookup. by rewrite list_lookup_insert_ne.
  - apply lookup_ge_None in Hr.
    rewrite (proj2 (lookup_ge_None _ _)) by (rewrite set_column_rows_length; lia).
    done.
Qed.

Lemma set_column_same c d vs : column c d = Some vs → set_column c vs d = d.
Proof.
  intros (k & Hk & ->)%column_Some. unfold set_column. rewrite Hk.
  rewrite assign_same. by destruct d.
Qed.

Lemma map_cells_wf f d : wf_frame d = true → wf_frame (map_cells f d) = true.
Proof.
  intros Hwf. apply wf_frame_intro; [by apply (wf_frame_NoDup d)|].
  simpl. intros r' (r & -> & Hr)%list_elem_of_fmap. simpl.
  rewrite length_map. by apply wf_frame_width.
Qed.

Lemma column_map_cells f c d :
  wf_frame d = true → column c (map_cells f d) = map f <$> column c d.
Proof.
  intros Hwf. unfold column. simpl.
  destruct (col_pos c (columns d)) as [k|] eqn:Hk; [|done]. simpl. f_equal.
  rewrite !map_map. apply map_ext_in. intros r Hr%list_elem_of_In.
  unfold cell. simpl.
  assert (is_Some (cells r !! k)) as [v Hv].
  { apply lookup_lt_is_Some. rewrite (wf_frame_width _ _ Hwf Hr).
    by apply col_pos_lookup, lookup_lt_Some in Hk. }
  rewrite (nth_lookup_Some _ _ _ _ Hv).
  apply nth_lookup_Some. by rewrite list_lookup_fmap, Hv.
Qed.

Lemma map_cells_fixed f d :
  (∀ r v, r ∈ rows d → v ∈ cells r → f v = v) → map_cells f d = d.
Proof.
  intros H. destruct d as [cols rs]. unfold map_cells. simpl in *. f_equal.
  rewrite <- (map_id rs) at 2. apply map_ext_in. intros r Hr%list_elem_of_In.
  destruct r as [l vs]. simpl. f_equal.
  rewrite <- (map_id vs) at 2. apply map_ext_in. intros v Hv%list_elem_of_In.
  by apply (H _ _ Hr).
Qed.

(** ** Objects, and what [__self_or_none__] returns *)

Lemma lookup_snoc_new (h : list DataFrame) d : (h ++ [d]) !! length h = Some d.
Proof. rewrite lookup_app_r by lia. by rewrite Nat.sub_diag. Qed.

Lemma objects_kept_alloc h d : objects_kept h (h ++ [d]).
Proof. intros r d0 H. rewrite lookup_app_l; [done | by eapply lookup_lt_Some]. Qed.

Lemma objects_kept_store_new h h' d :
  objects_kept h h' → objects_kept h (<[length h := d]> h').
Proof.
  intros Hk r d0 H. rewrite list_lookup_insert_ne; [by apply Hk|].
  apply lookup_lt_Some in H. lia.
Qed.

Lemma objects_kept_trans h1 h2 h3 :
  objects_kept h1 h2 → objects_kept h2 h3 → objects_kept h1 h3.
Proof. intros H12 H23 r d H. by apply H23, H12. Qed.

Lemma description_columns_counts fd : description_columns (counts fd) = columns fd.
Proof.
  unfold description_columns, counts. rewrite map_map. simpl. apply map_id.
Qed.


Lemma append_row_self fd : append_row (counts fd) (columns fd) = counts fd.
Proof.
  unfold append_row. rewrite filter_none; [by rewrite app_nil_r|].
  intros c Hc Hn. apply Hn. by rewrite description_columns_counts.
Qed.

Lemma describe_replace fd :
  columns fd ≠ [] → Pandas.describe (replace fd) = Ok (counts fd).
Proof.
  intros Hne. unfold Pandas.describe, counts. simpl.
  destruct (columns fd) eqn:E; [done|]. done.
Qed.

Lemma self_or_none_ok self a h fd sd :
  target self a h = Some fd → h !! df self = Some sd → columns fd ≠ [] →
  __self_or_none__ self a h =
    (Ok ((resolved self a h fd).1, append_row (counts fd) (columns sd)),
     (resolved self a h fd).2).
Proof.
  intros Ht Hs Hne. unfold __self_or_none__, bind, deref, alloc, ret, lift, copy.
  destruct a as [|r|]; simpl in *.
  - rewrite Ht. rewrite (describe_replace _ Hne). by rewrite Hs.
  - rewrite Ht. rewrite lookup_app_r by lia. rewrite Nat.sub_diag. simpl.
    rewrite (describe_replace _ Hne).
    rewrite lookup_app_l by (by eapply lookup_lt_Some). by rewrite Hs.
  - rewrite Ht. rewrite (describe_replace _ Hne). by rewrite Hs.
Qed.

Lemma resolved_lookup self a h fd :
  target self a h = Some fd → (resolved self a h fd).2 !! (resolved self a h fd).1 = Some fd.
Proof.
  destruct a; simpl; try done.
  intros _. rewrite lookup_app_r by lia. by rewrite Nat.sub_diag.
Qed.

Lemma resolved_frame self a h fd r0 d0 :
  h !! r0 = Some d0 → (resolved self a h fd).2 !! r0 = Some d0.
Proof.
  destruct a; simpl; try done.
  intros H. rewrite lookup_app_l; [done | by eapply lookup_lt_Some].
Qed.

Lemma self_or_none_external self r h d :
  h !! r = Some d →
  (∃ desc, __self_or_none__ self (ArgDataFrame r) h = (Ok (length h, desc), h ++ [d])) ∨
  (∃ e, __self_or_none__ self (ArgDataFrame r) h = (Err e, h ++ [d])).
Proof.
  intros H. unfold __self_or_none__, bind, deref, alloc, ret, lift, copy. rewrite H.
  rewrite lookup_app_r by lia. rewrite Nat.sub_diag. simpl.
  destruct (Pandas.describe (replace d)); [|eauto].
  destruct ((h ++ [d]) !! df self); eauto.
Qed.

(** ** [clean] *)










(** C3: [dq.flag(); dq.clean()] on [{"id": ["a", "b"], "x": ["p", "q"]}]
    returns a frame that still has the [duplicates] and [null] columns:
    the description it restricts to is computed from the flagged table. *)
Theorem clean_after_flag_keeps_flag_columns :
  ∃ fl cl,
    frames_of (flag_then_clean two_rows None) = Ok (Some fl, Some cl) ∧
    columns cl = ["id"; "x"; "duplicates"; "null"].
Proof. eexists _, _. split; vm_compute; reflexivity. Qed.

(** ** [flag] *)



Lemma code_eq_wf subset d :
  wf_frame d = true →
  code_eq subset d = match subset with
                     | [_] => same_key
                     | _ => same_code
                     end.
Proof.
  intros Hwf. unfold code_eq.
  by rewrite (bool_decide_eq_true_2 _ (wf_frame_NoDup _ Hwf)).
Qed.



Lemma flag_ok self a h fd sd fd' :
  target self a h = Some fd → h !! df self = Some sd → columns fd ≠ [] →
  flagged_frame self fd = Ok fd' →
  ∃ self' h',
    flag self a h = (Ok ((resolved self a h fd).1, self'), h') ∧
    h' = <[(resolved self a h fd).1 := fd']> (resolved self a h fd).2 ∧
    self' = (if is_none a
             then mkDataQuality (df self) (methods self) (resolved self a h fd).1
                    (description self) (unique_identifiers self)
             else self).
Proof.
  intros Ht Hs Hne Hfl. unfold flag, bind.
  rewrite (self_or_none_ok _ _ _ _ _ Ht Hs Hne).
  pose proof (resolved_lookup _ _ _ _ Ht) as Hl.
  destruct (resolved self a h fd) as [r h1]. simpl in *.
  unfold flagged_frame in Hfl. unfold deref, lift, store, ret.
  assert (r < length h1)%nat as Hlt by (by eapply lookup_lt_Some).
  destruct (bool_decide ("duplicates" ∈ methods self)).
  - rewrite Hl. destruct (duplicated (unique_identifiers self) fd) as [dup|e]; [|done].
    simpl in Hfl. injection Hfl as <-.
    destruct (bool_decide ("null" ∈ methods self)).
    + rewrite list_lookup_insert_eq by done.
      eexists _, _. split; [reflexivity|]. split; [|done].
      by rewrite list_insert_insert_eq.
    + eexists _, _. split; [reflexivity|]. done.
  - simpl in Hfl. injection Hfl as <-.
    destruct (bool_decide ("null" ∈ methods self)).
    + rewrite Hl. eexists _, _. split; [reflexivity|]. done.
    + eexists _, _. split; [reflexivity|]. split; [|done].
      by rewrite list_insert_id.
Qed.


(** The notebook's example: every column but the first is an identifier
    column, [surface] included; the third row repeats the second on all of
    them and is the only one flagged, and [clean] drops it. *)
Example notebook_flag_and_clean :
  ∃ self h fl cl,
    __init__ (TDict notebook_table) None [] = (Ok self, h) ∧
    unique_identifiers self = ["type_of_property"; "postcode"; "garden"; "surface"] ∧
    frames_of (flag_then_clean notebook_table None) = Ok (Some fl, Some cl) ∧
    column "duplicates" fl = Some [VInt 0; VInt 0; VInt 1; VInt 0; VInt 0] ∧
    map label (rows cl) = [0; 1; 3; 4]%nat.
Proof. eexists _, _, _, _. repeat split; vm_compute; reflexivity. Qed.


(** With a single identifier column [None] and NaN are different keys:
    in [{"id": ["a", "b", "c", "d"], "x": ["p", "q", None, float("nan")]}]
    the last row is null in [x] as the third is, and is not flagged. *)
Example none_and_nan_are_different_keys :
  ∃ self fl h fd,
    init_then_flag none_then_nan None [] = (Ok (self, fl), h) ∧
    unique_identifiers self = ["x"] ∧ h !! fl = Some fd ∧
    column "duplicates" fd = Some [VInt 0; VInt 0; VInt 0; VInt 0].
Proof. eexists _, _, _, _. repeat split; vm_compute; reflexivity. Qed.



(** C8: on the one-column table [{"id": ["a", "b"]}] no identifier column
    is selected and [flag] raises instead of setting [duplicates] to 0. *)
Theorem flag_raises_without_identifiers :
  (∃ self h, __init__ (TDict only_ids) None [] = (Ok self, h) ∧
             unique_identifiers self = []) ∧
  (init_then_flag only_ids None [])
    = (Err (ValueError "not enough values to unpack (expected 2, got 0)"),
       [only_ids; only_ids]).
Proof. split; [eexists _, _; split|]; vm_compute; reflexivity. Qed.

(** ** Calls on a table of the caller *)

Lemma flag_external_frame self r h d :
  h !! r = Some d →
  objects_kept h (flag self (ArgDataFrame r) h).2 ∧
  self_after self (flag self (ArgDataFrame r) h).1 = self.
Proof.
  intros H. unfold flag, bind.
  destruct (self_or_none_external self r h d H) as [[desc ->] | [e ->]];
    [|split; [apply objects_kept_alloc | done]].
  unfold deref, lift, store, ret.
  destruct (bool_decide ("duplicates" ∈ methods self)); cbv beta iota.
  - rewrite lookup_snoc_new.
    destruct (duplicated (unique_identifiers self) d) as [dup|e];
      [|split; [apply objects_kept_alloc | done]].
    destruct (bool_decide ("null" ∈ methods self)); cbv beta iota.
    + rewrite list_lookup_insert_eq by (rewrite length_app; simpl; lia).
      split; [|done]. do 2 apply objects_kept_store_new. apply objects_kept_alloc.
    + split; [|done]. apply objects_kept_store_new, objects_kept_alloc.
  - destruct (bool_decide ("null" ∈ methods self)); cbv beta iota.
    + rewrite lookup_snoc_new.
      split; [|done]. apply objects_kept_store_new, objects_kept_alloc.
    + split; [|done]. apply objects_kept_alloc.
Qed.

Lemma describe_external_frame self r h d :
  h !! r = Some d →
  objects_kept h (describe self (ArgDataFrame r) h).2 ∧
  self_after self (describe self (ArgDataFrame r) h).1 = self.
Proof.
  intros H. unfold describe, bind.
  destruct (self_or_none_external self r h d H) as [[desc ->] | [e ->]];
    (split; [apply objects_kept_alloc | done]).
Qed.

Lemma clean_external_frame self r h d :
  h !! r = Some d →
  objects_kept h (clean self (ArgDataFrame r) h).2 ∧
  self_after self (clean self (ArgDataFrame r) h).1 = self.
Proof.
  intros H. unfold clean, bind.
  destruct (self_or_none_external self r h d H) as [[desc ->] | [e ->]];
    [|split; [apply objects_kept_alloc | done]].
  unfold deref, lift, alloc, ret, raise.
  rewrite lookup_snoc_new.
  destruct (loc_columns (description_columns desc) (copy d));
    [|split; [apply objects_kept_alloc | done]].
  destruct (has_column "duplicates" d).
  - destruct (columns d); (split; [|done]).
    + apply objects_kept_alloc.
    + eapply objects_kept_trans; apply objects_kept_alloc.
  - split; [|done]. eapply objects_kept_trans; apply objects_kept_alloc.
Qed.

(** C7: when a DataFrame is passed, [flag], [describe] and [clean] work on
    a fresh copy: whether they return or raise, every object that existed
    before the call (the caller's table, the internal tables) is left with
    its contents, and no attribute of the instance is reassigned. *)
Theorem external_table_is_left_unchanged self r h d :
  h !! r = Some d →
  (objects_kept h (flag self (ArgDataFrame r) h).2 ∧
   (flag self (ArgDataFrame r) h).2 !! r = Some d ∧
   self_after self (flag self (ArgDataFrame r) h).1 = self) ∧
  (objects_kept h (describe self (ArgDataFrame r) h).2 ∧
   (describe self (ArgDataFrame r) h).2 !! r = Some d ∧
   self_after self (describe self (ArgDataFrame r) h).1 = self) ∧
  (objects_kept h (clean self (ArgDataFrame r) h).2 ∧
   (clean self (ArgDataFrame r) h).2 !! r = Some d ∧
   self_after self (clean self (ArgDataFrame r) h).1 = self).
Proof.
  intros H.
  destruct (flag_external_frame self r h d H) as [Hf1 Hf2].
  destruct (describe_external_frame self r h d H) as [Hd1 Hd2].
  destruct (clean_external_frame self r h d H) as [Hc1 Hc2].
  repeat split; try done; [by apply Hf1 | by apply Hd1 | by apply Hc1].
Qed.

(** C7 at an instance over [null_identifiers], passing its own table. *)
Lemma external_table_is_left_unchanged_witness :
  let self := instance_with ["x"] in
  let h := [null_identifiers; null_identifiers] in
  (objects_kept h (flag self (ArgDataFrame 0) h).2 ∧
   (flag self (ArgDataFrame 0) h).2 !! 0%nat = Some null_identifiers ∧
   self_after self (flag self (ArgDataFrame 0) h).1 = self) ∧
  (objects_kept h (describe self (ArgDataFrame 0) h).2 ∧
   (describe self (ArgDataFrame 0) h).2 !! 0%nat = Some null_identifiers ∧
   self_after self (describe self (ArgDataFrame 0) h).1 = self) ∧
  (objects_kept h (clean self (ArgDataFrame 0) h).2 ∧
   (clean self (ArgDataFrame 0) h).2 !! 0%nat = Some null_identifiers ∧
   self_after self (clean self (ArgDataFrame 0) h).1 = self).
Proof.
  apply (external_table_is_left_unchanged (instance_with ["x"]) 0
           [null_identifiers; null_identifiers] null_identifiers).
  reflexivity.
Defined.

(** ** The constructor *)

Lemma loc_count_map (F : string → option nat) c l :
  c ∈ l → loc_count c (map (fun c => (c, F c)) l) = F c.
Proof.
  induction l as [|c0 l IH]; [by intros ?%not_elem_of_nil|].
  simpl. destruct (String.eqb_spec c c0) as [->|Hne]; [done|].
  intros [?|?]%elem_of_cons; [done | by apply IH].
Qed.

Lemma loc_count_checked_counts c fd :
  c ∈ columns fd →
  loc_count_checked c (counts fd) = Ok (Some (count_of c (replace fd))).
Proof.
  intros Hc. unfold loc_count_checked.
  rewrite bool_decide_eq_true_2 by (by rewrite description_columns_counts).
  unfold counts. by rewrite (loc_count_map (fun c => Some (count_of c (replace fd)))).
Qed.

Lemma py_max_counts n ns :
  py_max (map Some (n :: ns)) = Ok (Some (fold_left Nat.max ns n)).
Proof.
  simpl. f_equal. revert n. induction ns as [|m ns IH]; intros n; simpl; [done|].
  destruct (Nat.ltb_spec n m).
  - rewrite IH. do 2 f_equal. lia.
  - rewrite IH. do 2 f_equal. lia.
Qed.

#[local] Arguments ge_half : simpl never.

Lemma collect_identifiers_spec first fd cm cols :
  cols ⊆ columns fd →
  ∃ ids, collect_identifiers first (counts fd) cm cols = Ok ids ∧
         ∀ c, c ∈ ids ↔
              c ∈ cols ∧ c ≠ first ∧ ge_half (Some (count_of c (replace fd))) cm = true.
Proof.
  induction cols as [|c0 cols IH]; intros Hsub.
  - exists []. split; [done|]. intros c. split; [by intros ?%not_elem_of_nil|].
    by intros [?%not_elem_of_nil _].
  - destruct IH as (ids & Hids & Hspec).
    { intros c Hc. apply Hsub. by right. }
    simpl. rewrite Hids.
    destruct (String.eqb_spec c0 first) as [->|Hne]; simpl.
    + exists ids. split; [done|]. intros c. rewrite Hspec, elem_of_cons.
      intuition congruence.
    + rewrite loc_count_checked_counts by (apply Hsub; left). simpl.
      destruct (ge_half (Some (count_of c0 (replace fd))) cm) eqn:E; simpl.
      * exists (c0 :: ids). split; [done|]. intros c.
        rewrite !elem_of_cons, Hspec. intuition congruence.
      * exists ids. split; [done|]. intros c. rewrite Hspec, elem_of_cons.
        intuition congruence.
Qed.

Lemma nth_replace k r :
  nth k (map replace_value (cells r)) VNone = replace_value (cell k r).
Proof. unfold cell. by rewrite <- (map_nth replace_value). Qed.

Lemma count_of_replace c d :
  c ∈ columns d → count_of c (replace d) = non_null_count c d.
Proof.
  intros Hc. destruct (col_pos_is_Some _ _ Hc) as [k Hk].
  unfold count_of, non_null_count, column, cell_of, replace, map_cells. simpl.
  rewrite Hk. simpl. rewrite map_map. rewrite length_filter_map.
  f_equal. apply list_filter_iff. intros r. unfold cell at 1. simpl.
  by rewrite nth_replace.
Qed.

Lemma table_heap_lookup table h d :
  table_frame table h = Some d → table_heap table h !! table_ref table h = Some d.
Proof.
  destruct table as [r|built|]; simpl; [done| |done].
  intros [= ->]. apply lookup_snoc_new.
Qed.

Lemma init_ok table ms h d :
  table_frame table h = Some d → columns d ≠ [] → methods_available ms = true →
  ∃ ids,
    __init__ table ms h =
      (Ok (mkDataQuality (table_ref table h) (default _METHODS ms)
             (length (table_heap table h)) (counts d) ids),
       table_heap table h ++ [d]) ∧
    ∀ c, c ∈ ids ↔
         c ∈ columns d ∧ head (columns d) ≠ Some c ∧
         ∀ c', c' ∈ columns d →
               (count_of c' (replace d) ≤ 2 * count_of c (replace d))%nat.
Proof.
  intros Ht Hne Hms.
  pose proof (table_heap_lookup _ _ _ Ht) as Hl.
  set (r := table_ref table h) in *. set (h1 := table_heap table h) in *.
  destruct (columns d) as [|c0 cols] eqn:Ecols; [done|].
  destruct (collect_identifiers_spec c0 d
              (Some (fold_left Nat.max (map (fun c => count_of c (replace d)) cols)
                       (count_of c0 (replace d))))
              (columns d)) as (ids & Hids & Hspec); [done|].
  exists ids. split.
  - assert (__init__ table ms h =
            (do ' (flagged, description) <-
               __self_or_none__ (mkDataQuality r (default _METHODS ms) r [] [])
                 (ArgDataFrame r) ;;
             do count_max <- lift (py_max (map snd description)) ;;
             do sd <- deref r ;;
             do ids <- lift (match columns sd with
                             | [] => Ok []
                             | first :: _ =>
                                 collect_identifiers first description count_max (columns sd)
                             end) ;;
             ret (mkDataQuality r (default _METHODS ms) flagged description ids)) h1) as ->.
    { unfold __init__, methods_available in *. rewrite Hms.
      destruct table; simpl in *; try done. }
    unfold bind at 1.
    rewrite (self_or_none_ok _ (ArgDataFrame r) h1 d d); [|done|done|by rewrite Ecols].
    simpl. rewrite append_row_self.
    unfold bind, lift, deref, ret.
    assert (map snd (counts d) =
            map Some (map (fun c => count_of c (replace d)) (columns d))) as ->.
    { unfold counts. by rewrite !map_map. }
    rewrite Ecols. rewrite map_cons, py_max_counts.
    rewrite lookup_app_l by (by eapply lookup_lt_Some). rewrite Hl.
    rewrite Ecols. rewrite <- Ecols. by rewrite Hids.
  - intros c. rewrite Hspec. rewrite Ecols. simpl.
    assert (ge_half (Some (count_of c (replace d)))
              (Some (fold_left Nat.max (map (fun c => count_of c (replace d)) cols)
                       (count_of c0 (replace d)))) = true ↔
            ∀ c', c' ∈ c0 :: cols →
                  (count_of c' (replace d) ≤ 2 * count_of c (replace d))%nat) as ->.
    { unfold ge_half. rewrite Nat.leb_le, fold_max_le. split.
      - intros [H0 Hall] c' [->|Hc']%elem_of_cons; [done|].
        apply Hall. apply list_elem_of_fmap. by exists c'.
      - intros Hall. split; [apply Hall; left|].
        intros y (c' & -> & Hc')%list_elem_of_fmap. apply Hall. by right. }
    split; intros (? & ? & ?); (split; [done|]); (split; [|done]); congruence.
Qed.

Lemma init_inv table ms h self h' :
  __init__ table ms h = (Ok self, h') →
  ∃ d, table_frame table h = Some d ∧ columns d ≠ [] ∧ methods_available ms = true.
Proof.
  unfold __init__, methods_available.
  destruct (forallb _ _) eqn:Hms.
  2:{ destruct table; simpl; unfold bind, ret, alloc, raise; simpl; done. }
  intros H.
  destruct (table_frame table h) as [d|] eqn:Ht.
  - exists d. split; [done|]. split; [|done]. intros Ecols.
    revert H. unfold __self_or_none__, bind, deref, alloc, ret, raise, lift, copy.
    destruct table as [r|built|]; simpl in *; [| |done].
    + rewrite Ht. rewrite lookup_snoc_new.
      unfold Pandas.describe. simpl. by rewrite Ecols.
    + injection Ht as ->. rewrite lookup_snoc_new. rewrite lookup_snoc_new.
      unfold Pandas.describe. simpl. by rewrite Ecols.
  - revert H. unfold __self_or_none__, bind, deref, alloc, ret, raise, lift, copy.
    destruct table as [r|built|]; simpl in *; [|done|done].
    by rewrite Ht.
Qed.










(** ** [values_format] *)

Lemma iter_pos_invariant {A} (P : A → Prop) (f : A → A) :
  (∀ x, P x → P (f x)) → ∀ p x, P x → P (SpecFloat.iter_pos f p x).
Proof.
  intros Hf. induction p as [p IH|p IH|]; intros x Hx; simpl.
  - apply IH, IH, Hf, Hx.
  - apply IH, IH, Hx.
  - apply Hf, Hx.
Qed.

Lemma shr_1_nonneg mrs : 0 ≤ shr_m mrs → 0 ≤ shr_m (shr_1 mrs).
Proof. destruct mrs as [m r s]. destruct m as [|[p|p|]|p]; simpl; lia. Qed.

Lemma shr_nonneg mrs e n : 0 ≤ shr_m mrs → 0 ≤ shr_m (shr mrs e n).1.
Proof.
  intros H. unfold shr. destruct n; simpl; try done.
  by apply (iter_pos_invariant (fun x => 0 ≤ shr_m x)), H; apply shr_1_nonneg.
Qed.

Lemma shr_record_of_loc_m m l : shr_m (shr_record_of_loc m l) = m.
Proof. by destruct l as [|[]]. Qed.

Lemma shr_fexp_nonneg prec emax m e l :
  0 ≤ m → 0 ≤ shr_m (shr_fexp prec emax m e l).1.
Proof. intros H. unfold shr_fexp. apply shr_nonneg. by rewrite shr_record_of_loc_m. Qed.

Lemma round_nearest_even_nonneg m l : 0 ≤ m → 0 ≤ round_nearest_even m l.
Proof. intros H. unfold round_nearest_even. destruct l as [|[]]; try done; [destruct (Z.even m)|]; lia. Qed.

Lemma binary_round_aux_not_nan prec emax s m e l :
  0 ≤ m → is_nan (binary_round_aux prec emax s m e l) = false.
Proof.
  intros H. unfold binary_round_aux.
  pose proof (shr_fexp_nonneg prec emax m e l H) as H1.
  destruct (shr_fexp prec emax m e l) as [mrs' e']. simpl in H1.
  pose proof (shr_fexp_nonneg prec emax _ e' loc_Exact
                (round_nearest_even_nonneg _ (loc_of_shr_record mrs') H1)) as H2.
  destruct (shr_fexp prec emax _ e' loc_Exact) as [mrs'' e'']. simpl in H2.
  destruct (shr_m mrs''); [done| |lia].
  by destruct (_ <=? _).
Qed.

Lemma float_of_Z_not_nan z : is_nan (float_of_Z z) = false.
Proof.
  unfold float_of_Z, binary_normalize, binary_round.
  destruct z as [|m|m]; [done| |];
    destruct (shl_align _ _ _); by apply binary_round_aux_not_nan.
Qed.

Lemma float_of_int_not_nan z f : float_of_int z = Ok f → is_nan f = false.
Proof.
  unfold float_of_int. pose proof (float_of_Z_not_nan z) as H.
  destruct (float_of_Z z); try done; by intros [= <-].
Qed.

Lemma str_of_int_nonempty z : str_of_int z ≠ EmptyString.
Proof.
  unfold str_of_int, NilZero.string_of_int.
  destruct (Z.to_int z) as [d|d]; [|done].
  unfold NilZero.string_of_uint. by destruct d.
Qed.

Lemma fill_with_idem fill x : fill_with fill (fill_with fill x) = fill_with fill x.
Proof.
  unfold fill_with. destruct (isna x) eqn:Hx; [|by rewrite Hx].
  by destruct (isna fill).
Qed.

Lemma fillna_ok fill d d' :
  fillna fill d = Ok d' → fill ≠ VNone ∧ d' = map_cells (fill_with fill) d.
Proof. unfold fillna. destruct fill; [done|..]; by intros [= <-]. Qed.

Lemma fillna_again fill d :
  fill ≠ VNone →
  fillna fill (map_cells (fill_with fill) d) = Ok (map_cells (fill_with fill) d).
Proof.
  intros Hne.
  assert (fillna fill (map_cells (fill_with fill) d)
          = Ok (map_cells (fill_with fill) (map_cells (fill_with fill) d))) as ->
    by (by destruct fill).
  f_equal. apply map_cells_fixed. simpl.
  intros r' v (r & -> & Hr)%list_elem_of_fmap. simpl.
  intros (x & -> & Hx)%list_elem_of_fmap. apply fill_with_idem.
Qed.

Lemma check_with_headers_columns keys d d' :
  columns d' = columns d →
  __check_with_headers__ keys d' = __check_with_headers__ keys d.
Proof. intros H. unfold __check_with_headers__. by rewrite H. Qed.

Section FormatterFacts.

Variable repr_float : spec_float → string.
Hypothesis repr_float_nonempty : ∀ f, repr_float f ≠ EmptyString.

Lemma dtype_change_empty fill v c t :
  is_empty_value v = true → dtype_change repr_float fill v c t = Ok fill.
Proof. intros H. unfold dtype_change. by rewrite H. Qed.

Lemma dtype_change_str_result fill s c :
  s ≠ EmptyString → dtype_change repr_float fill (VStr s) c "str" = Ok (VStr s).
Proof. intros H. unfold dtype_change. simpl. destruct s; [done|]. done. Qed.

Lemma dtype_change_float_result fill f c :
  is_nan f = false → dtype_change repr_float fill (VFloat f) c "float" = Ok (VFloat f).
Proof. intros H. unfold dtype_change. simpl. by rewrite H. Qed.

(** A value that came out of the coercion is left alone by the same
    coercion. *)
Lemma dtype_change_stable fill v c t y :
  is_empty_value v = false →
  dtype_change repr_float fill v c t = Ok y →
  dtype_change repr_float fill y c t = Ok y.
Proof.
  intros Hne H. pose proof H as Hv. unfold dtype_change in H. rewrite Hne in H.
  destruct (String.eqb (type_name v) t) eqn:Et; [by injection H as <-|].
  destruct v as [|s|b|z|f]; [done| | | |].
  - destruct (String.eqb_spec t "int") as [->|_]; simpl in H.
    { destruct (isnumeric s); by injection H as <-. }
    destruct (String.eqb_spec t "float") as [->|_]; simpl in H.
    { destruct (isdecimal s); [|by injection H as <-].
      injection H as <-. apply dtype_change_float_result, float_of_Z_not_nan. }
    destruct (String.eqb_spec t "yn") as [->|_]; [|by injection H as <-].
    destruct (_ || _); [by injection H as <-|].
    destruct (_ || _); by injection H as <-.
  - destruct (String.eqb_spec t "yn") as [->|_]; [|by injection H as <-].
    destruct b; by injection H as <-.
  - destruct (String.eqb_spec t "float") as [->|_].
    { destruct (float_of_int z) as [f|e] eqn:Ef; [|done]. injection H as <-.
      by apply dtype_change_float_result, (float_of_int_not_nan z). }
    destruct (String.eqb_spec t "str") as [->|_]; [|done].
    injection H as <-. apply dtype_change_str_result, str_of_int_nonempty.
  - destruct (String.eqb_spec t "int") as [->|_]; simpl in H.
    { destruct (is_integer f); [by injection H as <-|done]. }
    destruct (String.eqb_spec t "str") as [->|_]; [|done].
    injection H as <-. apply dtype_change_str_result, repr_float_nonempty.
Qed.

(** ... and so is the cell that [fillna] leaves in its place. *)
Lemma dtype_change_settled fill v c t y :
  (is_empty_value v = true → dtype_change repr_float fill fill c t = Ok fill) →
  dtype_change repr_float fill v c t = Ok y →
  fill_with fill y = y ∧ dtype_change repr_float fill y c t = Ok y.
Proof.
  intros Hfill H.
  destruct (is_empty_value v) eqn:Hv.
  - rewrite (dtype_change_empty _ _ _ _ Hv) in H. injection H as <-.
    split; [|by apply Hfill]. unfold fill_with. by destruct (isna fill).
  - pose proof (dtype_change_stable _ _ _ _ _ Hv H) as Hs. split; [|done].
    unfold fill_with. destruct (isna y) eqn:Hy; [|done].
    assert (is_empty_value y = true) as He by (by destruct y).
    rewrite (dtype_change_empty _ _ _ _ He) in Hs. by injection Hs.
Qed.

Lemma settled_column fill c t vs ys :
  (∀ v, v ∈ vs → is_empty_value v = true →
        dtype_change repr_float fill fill c t = Ok fill) →
  Forall2 (fun v y => dtype_change repr_float fill v c t = Ok y) vs ys →
  Forall (fun y => fill_with fill y = y ∧ dtype_change repr_float fill y c t = Ok y) ys.
Proof.
  intros Hfill H. induction H as [|v y vs ys Hvy _ IH]; constructor.
  - apply (dtype_change_settled fill v c t y); [|done].
    intros Hv. apply (Hfill v); [left | done].
  - apply IH. intros v' Hv'. apply Hfill. by right.
Qed.

Lemma format_columns_spec r fill cd :
  ∀ d h u h',
    NoDup (map fst cd) → h !! r = Some d → wf_frame d = true →
    format_columns repr_float r fill cd h = (Ok u, h') →
    ∃ d', h' = <[r := d']> h ∧ wf_frame d' = true ∧ columns d' = columns d ∧
          (∀ c t, (c, t) ∈ cd →
                  ∃ vs ys, column c d = Some vs ∧
                           rmapM (fun x => dtype_change repr_float fill x c t) vs = Ok ys ∧
                           column c d' = Some ys) ∧
          (∀ c, c ∉ map fst cd → column c d' = column c d).
Proof.
  induction cd as [|[c t] cd IH]; intros d h u h' Hnd Hr Hwf Hrun.
  - injection Hrun as _ <-. exists d. split; [by rewrite list_insert_id|].
    split; [done|]. split; [done|]. split; [by intros c t ?%not_elem_of_nil | done].
  - apply NoDup_cons in Hnd as [Hc Hnd]. simpl in Hc.
    revert Hrun. simpl. unfold bind at 1, deref at 1. rewrite Hr.
    unfold bind at 1, lift at 1.
    destruct (column c d) as [vs|] eqn:Hvs; [|done].
    destruct (rmapM _ vs) as [ys|e] eqn:Hys; [|done].
    unfold bind at 1, store at 1. intros Hrun.
    assert (r < length h)%nat as Hlt by (by eapply lookup_lt_Some).
    destruct (column_Some _ _ _ Hvs) as (k & Hk & _).
    assert (length ys = length (rows d)) as Hlen.
    { rewrite <- (column_length _ _ _ Hvs). symmetry.
      by eapply Forall2_length, rmapM_Forall2. }
    destruct (IH (set_column c ys d) _ u h' Hnd
                (list_lookup_insert_eq _ _ _ Hlt) (set_column_wf _ _ _ Hwf) Hrun)
      as (d' & -> & Hwf' & Hcols & Hin & Hout).
    exists d'. split; [by rewrite list_insert_insert_eq|]. split; [done|].
    split; [by rewrite Hcols, (set_column_columns _ _ _ _ Hk)|]. split.
    + intros c0 t0 [[= -> ->]|H0]%elem_of_cons.
      * exists vs, ys. split; [done|]. split; [done|].
        rewrite (Hout _ Hc). by eapply column_set_column_eq.
      * destruct (Hin _ _ H0) as (vs0 & ys0 & H1 & H2 & H3).
        exists vs0, ys0. split; [|done].
        rewrite <- H1. symmetry. apply (column_set_column_ne _ _ _ _ k); [|done].
        intros ->. apply Hc. apply list_elem_of_fmap. by exists (c, t0).
    + intros c0 [Hne Hc0]%not_elem_of_cons. simpl in Hne.
      rewrite (Hout _ Hc0). by apply (column_set_column_ne _ _ _ _ k).
Qed.

Lemma format_columns_noop r fill cd d h :
  h !! r = Some d →
  (∀ c t, (c, t) ∈ cd →
          ∃ vs, column c d = Some vs ∧
                rmapM (fun x => dtype_change repr_float fill x c t) vs = Ok vs) →
  format_columns repr_float r fill cd h = (Ok tt, h).
Proof.
  intros Hr. induction cd as [|[c t] cd IH]; intros Hall; [done|].
  destruct (Hall c t) as (vs & Hvs & Hfix); [left|].
  simpl. unfold bind at 1, deref at 1. rewrite Hr.
  unfold bind at 1, lift at 1. rewrite Hvs, Hfix.
  unfold bind at 1, store at 1. rewrite (set_column_same _ _ _ Hvs).
  rewrite list_insert_id by done. apply IH.
  intros c0 t0 H0. apply Hall. by right.
Qed.

(** C9, amended: when the first [values_format] succeeds on a well-formed
    table and, for every targeted column that holds a null or empty cell,
    the coercion to that column's tag leaves [fill_empty] itself
    unchanged, a second [values_format] with the same arguments on the
    returned table succeeds, returns a table with the same contents and
    leaves the table it was given as it is. *)
Theorem values_format_twice self cd a fill h d0 out self1 h1 :
  NoDup (map fst cd) →
  h !! format_target self a = Some d0 → wf_frame d0 = true →
  (∀ c t vs v, (c, t) ∈ cd → column c d0 = Some vs → v ∈ vs →
               is_empty_value v = true →
               dtype_change repr_float fill fill c t = Ok fill) →
  values_format repr_float self cd a fill h = (Ok (out, self1), h1) →
  ∃ d1 out2 self2 h2,
    h1 !! out = Some d1 ∧
    values_format repr_float self1 cd (ArgDataFrame out) fill h1 = (Ok (out2, self2), h2) ∧
    h2 !! out2 = Some d1 ∧ h2 !! out = Some d1.
Proof.
  intros Hnd Hd0 Hwf Hfill Hrun.
  revert Hrun. unfold values_format. fold (format_target self a).
  unfold bind at 1, deref at 1. rewrite Hd0.
  unfold bind at 1, lift at 1.
  destruct (__check_with_headers__ (map fst cd) d0) as [[]|e] eqn:Hchk; [|done].
  unfold bind at 1.
  destruct (format_columns repr_float (format_target self a) fill cd h) as [[u|e] h'] eqn:Hfmt;
    [|done].
  destruct (format_columns_spec _ _ _ _ _ _ _ Hnd Hd0 Hwf Hfmt)
    as (d' & -> & Hwf' & Hcols & Hin & _).
  assert (format_target self a < length h)%nat as Hlt by (by eapply lookup_lt_Some).
  unfold bind at 1, deref at 1. rewrite list_lookup_insert_eq by done.
  unfold bind at 1, lift at 1.
  destruct (fillna fill d') as [d2|e] eqn:Hna; [|done].
  apply fillna_ok in Hna as [Hnone ->].
  unfold bind, alloc, ret. intros [= <- <- <-].
  set (h' := <[format_target self a := d']> h).
  set (d2 := map_cells (fill_with fill) d').
  assert (∀ c t, (c, t) ∈ cd →
                 ∃ ys, column c d2 = Some ys ∧
                       rmapM (fun x => dtype_change repr_float fill x c t) ys = Ok ys)
    as Hsettled.
  { intros c t Hct. destruct (Hin _ _ Hct) as (vs & ys & Hvs & Hys & Hys').
    exists ys. unfold d2. rewrite (column_map_cells _ _ _ Hwf'), Hys'. simpl.
    apply rmapM_Forall2 in Hys.
    assert (Forall (fun y => fill_with fill y = y ∧
                             dtype_change repr_float fill y c t = Ok y) ys) as Hall.
    { apply (settled_column fill c t vs ys); [|done].
      intros v Hv He. by apply (Hfill c t vs v). }
    split.
    - f_equal. rewrite <- (map_id ys) at 2. apply map_ext_in.
      intros y Hy%list_elem_of_In. rewrite Forall_forall in Hall. by apply Hall.
    - apply rmapM_fixed. eapply Forall_impl; [exact Hall|]. by intros y [_ ?]. }
  assert ((h' ++ [d2]) !! length h' = Some d2) as Hout by apply lookup_snoc_new.
  exists d2, (length (h' ++ [d2])), self, ((h' ++ [d2]) ++ [d2]).
  split; [done|]. split.
  - unfold deref, lift, bind. rewrite Hout.
    rewrite (check_with_headers_columns _ d0 d2) by (by rewrite <- Hcols).
    rewrite Hchk.
    rewrite (format_columns_noop _ _ _ d2 _ Hout Hsettled).
    rewrite Hout. unfold d2 at 1. rewrite (fillna_again _ _ Hnone). done.
  - split; [apply lookup_snoc_new|].
    rewrite lookup_app_l; [done|]. rewrite length_app. simpl. lia.
Qed.

End FormatterFacts.

(** C9 at [missing_number] with [{"n": "int"}] and [fill_empty = 0]. *)
Lemma values_format_twice_witness :
  ∃ d1 out2 self2 h2,
    [mkDataFrame ["n"] [mkRow 0 [VInt 7]; mkRow 1 [VInt 0]]; missing_number;
     mkDataFrame ["n"] [mkRow 0 [VInt 7]; mkRow 1 [VInt 0]]] !! 2%nat = Some d1 ∧
    values_format repr_unused (instance_with []) [("n", "int")] (ArgDataFrame 2) (VInt 0)
      [mkDataFrame ["n"] [mkRow 0 [VInt 7]; mkRow 1 [VInt 0]]; missing_number;
       mkDataFrame ["n"] [mkRow 0 [VInt 7]; mkRow 1 [VInt 0]]]
    = (Ok (out2, self2), h2) ∧
    h2 !! out2 = Some d1 ∧ h2 !! 2%nat = Some d1.
Proof.
  apply (values_format_twice repr_unused (fun f => ltac:(discriminate))
           (instance_with []) [("n", "int")] ArgNone (VInt 0)
           [missing_number; missing_number] missing_number 2 (instance_with [])).
  - apply NoDup_cons. split; [apply not_elem_of_nil | apply NoDup_nil_2].
  - reflexivity.
  - vm_compute. reflexivity.
  - intros c t vs v Hct%list_elem_of_In _ _ _. simpl in Hct.
    destruct Hct as [[= <- <-]|[]]. reflexivity.
  - vm_compute. reflexivity.
Defined.

(** C9, counterexample: on [{"n": ["7", None]}] with [{"n": "int"}] and
    [fill_empty = "0"], the first pass returns [[7, "0"]]; the second
    pass, given that table, turns the filled ["0"] into the integer 0,
    in the table it returns and in the one it was given. *)
Lemma second_pass_converts_the_fill_value :
  ∃ self h0 t1 self1 h1 t2 self2 h2,
    __init__ (TDict missing_number) None [] = (Ok self, h0) ∧
    values_format repr_unused self [("n", "int")] ArgNone (VStr "0") h0
    = (Ok (t1, self1), h1) ∧
    h1 !! t1 = Some (mkDataFrame ["n"] [mkRow 0 [VInt 7]; mkRow 1 [VStr "0"]]) ∧
    values_format repr_unused self1 [("n", "int")] (ArgDataFrame t1) (VStr "0") h1
    = (Ok (t2, self2), h2) ∧
    h2 !! t2 = Some (mkDataFrame ["n"] [mkRow 0 [VInt 7]; mkRow 1 [VInt 0]]) ∧
    h2 !! t1 = Some (mkDataFrame ["n"] [mkRow 0 [VInt 7]; mkRow 1 [VInt 0]]).
Proof.
  eexists _, _, _, _, _, _, _, _.
  split; [vm_compute; reflexivity|].
  split; [vm_compute; reflexivity|].
  split; [vm_compute; reflexivity|].
  split; [vm_compute; reflexivity|].
  split; vm_compute; reflexivity.
Qed.

(** C5: a string that is no number and a boolean, both with requested tag
    ["int"], come back unchanged and [values_format] raises nothing; only
    the branch reached by values of the other types raises, as for the
    integer 3 with requested tag ["yn"]. *)
Theorem unconvertible_str_and_bool_are_kept (repr_float : spec_float → string) :
  dtype_change repr_float (VStr "None") (VStr "abc") "n" "int" = Ok (VStr "abc") ∧
  dtype_change repr_float (VStr "None") (VBool true) "b" "int" = Ok (VBool true) ∧
  frames_of (format_once repr_float letters_and_truth [("n", "int"); ("b", "int")] (VStr "None"))
  = Ok (Some letters_and_truth, Some letters_and_truth) ∧
  dtype_change repr_float (VStr "None") (VInt 3) "n" "yn"
  = Err (Exception "n int 3 not converted into yn").
Proof. repeat split; vm_compute; reflexivity. Qed.
(** X1: For a dataframe, or a dictionary from which pandas builds a
    dataframe, whose column labels are distinct, the constructor returns
    an instance exactly when the table has at least one column and
    every requested method is one of the available methods. *)
Theorem constructor_returns_iff table ms h d :
  table_frame table h = Some d → NoDup (columns d) →
  (∃ self h', __init__ table ms h = (Ok self, h')) ↔
  columns d ≠ [] ∧ methods_available ms = true.
Proof.
  intros Ht _. split.
  - intros (self & h' & H).
    destruct (init_inv _ _ _ _ _ H) as (d' & Ht' & Hne & Hms).
    rewrite Ht in Ht'. by injection Ht' as <-.
  - intros [Hne Hms].
    destruct (init_ok _ _ _ _ Ht Hne Hms) as (ids & H & _). eauto.
Qed.

(** X1 at [DataQuality(two_rows)]. *)
Lemma constructor_returns_iff_witness :
  (∃ self h', __init__ (TDict two_rows) None [] = (Ok self, h')) ↔
  columns two_rows ≠ [] ∧ methods_available None = true.
Proof.
  apply (constructor_returns_iff (TDict two_rows) None [] two_rows).
  - reflexivity.
  - apply (bool_decide_unpack _). vm_compute. exact I.
Defined.

(** X2: A table that is neither a dictionary nor a dataframe is
    rejected with the message of the first check, and a dictionary or
    dataframe with a requested method that is not available with the
    message of the second; only the dataframe built from a dictionary
    has been created by then. *)
Theorem constructor_rejects table ms h :
  table = TOther ∨ methods_available ms = false →
  __init__ table ms h
  = (Err (Exception match table with
                    | TOther => not_a_table
                    | _ => methods_not_available
                    end),
     table_heap table h).
Proof.
  intros H. unfold __init__, methods_available in *.
  destruct table as [r|built|]; simpl.
  - destruct H as [?|H]; [done|]. by rewrite H.
  - destruct H as [?|H]; [done|]. unfold bind, alloc. by rewrite H.
  - done.
Qed.

(** X2 at a concrete input. *)
Lemma constructor_rejects_witness :
  __init__ (TDict two_rows) (Some ["duplicates"; "outliers"]) []
  = (Err (Exception methods_not_available), [two_rows]).
Proof.
  apply (constructor_rejects (TDict two_rows) (Some ["duplicates"; "outliers"]) []).
  right. reflexivity.
Defined.


Lemma flag_err self a h fd sd e :
  target self a h = Some fd → h !! df self = Some sd → columns fd ≠ [] →
  flagged_frame self fd = Err e →
  flag self a h = (Err e, (resolved self a h fd).2).
Proof.
  intros Ht Hs Hne Hfl. unfold flag, bind.
  rewrite (self_or_none_ok _ _ _ _ _ Ht Hs Hne).
  pose proof (resolved_lookup _ _ _ _ Ht) as Hl.
  destruct (resolved self a h fd) as [r h1]. simpl in *.
  unfold flagged_frame in Hfl. unfold deref, lift, store, ret.
  destruct (bool_decide ("duplicates" ∈ methods self)); [|done].
  rewrite Hl. destruct (duplicated (unique_identifiers self) fd) as [dup|e']; [done|].
  simpl in Hfl. by injection Hfl as ->.
Qed.








Lemma self_or_none_internal self a h :
  (∀ r, a ≠ ArgDataFrame r) →
  (∃ desc, __self_or_none__ self a h = (Ok (flagged self, desc), h)) ∨
  (∃ e, __self_or_none__ self a h = (Err e, h)).
Proof.
  intros Ha. unfold __self_or_none__, bind, deref, ret, lift.
  destruct a as [|r|]; [|by destruct (Ha r)|];
    (destruct (h !! flagged self); [|eauto];
     destruct (Pandas.describe _); [|eauto];
     destruct (h !! df self); eauto).
Qed.

(** X6: Called without a dataframe, [flag] creates no object and
    changes none but the instance's flagged table; when it returns, the
    returned table is that very object and no attribute of the instance
    is rebound. *)
Theorem flag_works_in_place self a h :
  (∀ r, a ≠ ArgDataFrame r) →
  length (flag self a h).2 = length h ∧
  (∀ r, r ≠ flagged self → (flag self a h).2 !! r = h !! r) ∧
  (∀ fl self', (flag self a h).1 = Ok (fl, self') → fl = flagged self ∧ self' = self).
Proof.
  intros Ha. unfold flag, bind.
  destruct (self_or_none_internal self a h Ha) as [[desc ->] | [e ->]]; [|done].
  unfold deref, lift, store, ret.
  assert ((if is_none a
           then mkDataQuality (df self) (methods self) (flagged self) (description self)
                  (unique_identifiers self)
           else self) = self) as -> by (destruct a, self; done).
  destruct (bool_decide ("duplicates" ∈ methods self)); cbv beta iota.
  - destruct (h !! flagged self) as [d|] eqn:Hd; [|done].
    destruct (duplicated (unique_identifiers self) d) as [dup|e]; [|done].
    destruct (bool_decide ("null" ∈ methods self)); cbv beta iota.
    + rewrite list_lookup_insert_eq by (by eapply lookup_lt_Some). simpl.
      rewrite !length_insert. split; [done|]. split.
      * intros r Hr. by rewrite !list_lookup_insert_ne.
      * by intros fl self' [= <- <-].
    + simpl. rewrite length_insert. split; [done|]. split.
      * intros r Hr. by rewrite list_lookup_insert_ne.
      * by intros fl self' [= <- <-].
  - destruct (bool_decide ("null" ∈ methods self)); cbv beta iota.
    + destruct (h !! flagged self) as [d|] eqn:Hd; [|done]. simpl.
      rewrite length_insert. split; [done|]. split.
      * intros r Hr. by rewrite list_lookup_insert_ne.
      * by intros fl self' [= <- <-].
    + simpl. split; [done|]. split; [done|]. by intros fl self' [= <- <-].
Qed.

(** X6 at a concrete input. *)
Lemma flag_works_in_place_witness :
  let self := instance_with ["x"] in
  let h := [null_identifiers; null_identifiers] in
  length (flag self ArgNone h).2 = length h ∧
  (∀ r, r ≠ flagged self → (flag self ArgNone h).2 !! r = h !! r) ∧
  (∀ fl self', (flag self ArgNone h).1 = Ok (fl, self') → fl = flagged self ∧ self' = self).
Proof.
  apply (flag_works_in_place (instance_with ["x"]) ArgNone
           [null_identifiers; null_identifiers]).
  intros r. discriminate.
Defined.


Lemma subset_key_snoc sub cols c vs v :
  c ∉ sub → length vs = length cols →
  subset_key sub (cols ++ [c]) (vs ++ [v]) = subset_key sub cols vs.
Proof.
  intros Hc. revert vs. induction cols as [|c0 cols IH]; intros vs Hlen.
  - destruct vs; [|done]. simpl. by rewrite bool_decide_eq_false_2.
  - destruct vs as [|v0 vs]; [done|]. simpl in *.
    rewrite IH by lia. done.
Qed.

Lemma scan_length eqv seen ks : length (duplicated_scan eqv seen ks) = length ks.
Proof. revert seen. induction ks as [|k ks IH]; intros seen; simpl; [done|]. by rewrite IH. Qed.

Lemma duplicated_length ids d dup :
  columns d ≠ [] → duplicated ids d = Ok dup → length dup = length (rows d).
Proof.
  intros Hne. unfold duplicated.
  destruct (rows d) as [|r0 rs] eqn:Er; [by intros [= <-]|].
  destruct (columns d) as [|c0 cols]; [done|].
  destruct (filter _ ids); [|done]. destruct (filter _ (c0 :: cols)); [done|].
  rewrite <- Er. intros H.
  assert (length dup = length (duplicated_scan (code_eq ids d) []
            (map (fun r => subset_key ids (c0 :: cols) (cells r)) (rows d)))) as ->
    by congruence.
  by rewrite scan_length, length_map.
Qed.

Lemma set_column_new c vals d :
  col_pos c (columns d) = None →
  columns (set_column c vals d) = columns d ++ [c] ∧
  ∀ j r, rows d !! j = Some r →
         rows (set_column c vals d) !! j
         = Some (mkRow (label r) (cells r ++ [nth j vals NaN])).
Proof.
  intros Hc. split.
  - unfold set_column. by rewrite Hc.
  - intros j r Hr. rewrite (set_column_row _ _ _ _ _ Hr). by rewrite Hc.
Qed.

Lemma duplicated_no_rows ids d : rows d = [] → duplicated ids d = Ok [].
Proof. intros E. unfold duplicated. by rewrite E. Qed.

Lemma duplicated_unfold ids d :
  rows d ≠ [] → columns d ≠ [] →
  duplicated ids d =
    match filter (fun c => c ∉ columns d) ids with
    | [] =>
        match filter (fun c => c ∈ ids) (columns d) with
        | [] => Err (ValueError "not enough values to unpack (expected 2, got 0)")
        | _ => Ok (duplicated_scan (code_eq ids d) []
                     (map (fun r => subset_key ids (columns d) (cells r)) (rows d)))
        end
    | missing => Err (KeyError missing)
    end.
Proof. intros Hr Hc. unfold duplicated. by destruct (rows d), (columns d). Qed.

Lemma duplicated_set_column_new ids c vals d :
  wf_frame d = true → columns d ≠ [] → c ∉ columns d → ids ⊆ columns d →
  duplicated ids (set_column c vals d) = duplicated ids d.
Proof.
  intros Hwf Hne Hc Hsub.
  assert (col_pos c (columns d) = None) as Hp by (by apply col_pos_None).
  destruct (set_column_new c vals d Hp) as [Hcols Hrows].
  assert (c ∉ ids) as Hci by (intros ?; by apply Hc, Hsub).
  destruct (rows d) as [|r0 rs] eqn:Er.
  { rewrite !duplicated_no_rows; [done..|].
    apply length_zero_iff_nil. by rewrite set_column_rows_length, Er. }
  rewrite <- Er in Hrows.
  rewrite !duplicated_unfold; [|by rewrite Er|done| |].
  2:{ intros E. apply (f_equal length) in E.
      rewrite set_column_rows_length, Er in E. done. }
  2:{ rewrite Hcols. by destruct (columns d). }
  rewrite Hcols.
  assert (filter (fun x => x ∉ columns d ++ [c]) ids = []) as ->.
  { apply filter_none. intros x Hx Hn. apply Hn, elem_of_app. left. by apply Hsub. }
  assert (filter (fun x => x ∉ columns d) ids = []) as ->.
  { apply filter_none. intros x Hx Hn. by apply Hn, Hsub. }
  assert (filter (fun x => x ∈ ids) (columns d ++ [c])
          = filter (fun x => x ∈ ids) (columns d)) as ->.
  { rewrite filter_app. rewrite (filter_none _ [c]); [by rewrite app_nil_r|].
    by intros x ->%list_elem_of_singleton. }
  destruct (filter (fun x => x ∈ ids) (columns d)); [done|].
  rewrite (code_eq_wf _ _ Hwf), (code_eq_wf _ _ (set_column_wf c vals d Hwf)).
  do 2 f_equal.
  apply list_eq. intros j. rewrite !list_lookup_fmap.
  destruct (rows d !! j) as [r|] eqn:Hr.
  - rewrite (Hrows _ _ Hr). simpl. f_equal.
    apply subset_key_snoc; [done|]. by eapply rows_lookup_width.
  - apply lookup_ge_None in Hr.
    rewrite (proj2 (lookup_ge_None _ _)); [done|]. by rewrite set_column_rows_length.
Qed.

Lemma column_set_column_new c ys d :
  wf_frame d = true → col_pos c (columns d) = None → length ys = length (rows d) →
  column c (set_column c ys d) = Some ys.
Proof.
  intros Hwf Hp Hlen. destruct (set_column_new c ys d Hp) as [Hcols Hrows].
  unfold column. rewrite Hcols, (col_pos_snoc _ _ Hp). simpl. f_equal.
  apply list_eq. intros j. rewrite list_lookup_fmap.
  destruct (rows d !! j) as [r|] eqn:Hr.
  - rewrite (Hrows _ _ Hr). simpl.
    destruct (ys !! j) as [y|] eqn:Hy.
    + rewrite (nth_lookup_Some _ _ _ _ Hy). f_equal. unfold cell. simpl.
      apply nth_lookup_Some. rewrite <- (rows_lookup_width _ _ _ Hwf Hr).
      rewrite lookup_app_r by lia. by rewrite Nat.sub_diag.
    + apply lookup_ge_None in Hy. apply lookup_lt_Some in Hr. lia.
  - apply lookup_ge_None in Hr.
    rewrite (proj2 (lookup_ge_None _ _)) by (rewrite set_column_rows_length; lia).
    simpl. symmetry. apply lookup_ge_None. lia.
Qed.

Lemma column_set_column_new_other c c' ys d :
  wf_frame d = true → col_pos c (columns d) = None → c' ≠ c →
  column c' (set_column c ys d) = column c' d.
Proof.
  intros Hwf Hp Hne. destruct (set_column_new c ys d Hp) as [Hcols Hrows].
  unfold column. rewrite Hcols.
  destruct (col_pos c' (columns d)) as [k'|] eqn:Hk'.
  - rewrite (col_pos_app_l _ _ _ _ Hk'). simpl. f_equal.
    apply list_eq. intros j. rewrite !list_lookup_fmap.
    destruct (rows d !! j) as [r|] eqn:Hr.
    + rewrite (Hrows _ _ Hr). simpl. f_equal. unfold cell. simpl.
      rewrite !nth_lookup. rewrite lookup_app_l; [done|].
      rewrite (rows_lookup_width _ _ _ Hwf Hr).
      by apply col_pos_lookup, lookup_lt_Some in Hk'.
    + apply lookup_ge_None in Hr.
      rewrite (proj2 (lookup_ge_None _ _)) by (rewrite set_column_rows_length; lia).
      done.
  - by rewrite (col_pos_snoc_ne _ _ _ Hne Hk').
Qed.

Lemma null_counts_set_column_new c vals d :
  col_pos c (columns d) = None → length vals = length (rows d) →
  Forall (fun v => isna v = false) vals →
  null_counts (set_column c vals d) = null_counts d.
Proof.
  intros Hp Hlen Hvals. destruct (set_column_new c vals d Hp) as [_ Hrows].
  unfold null_counts. apply list_eq. intros j. rewrite !list_lookup_fmap.
  destruct (rows d !! j) as [r|] eqn:Hr.
  - rewrite (Hrows _ _ Hr). simpl. do 3 f_equal.
    rewrite filter_app, length_app.
    assert (is_Some (vals !! j)) as [v Hv].
    { apply lookup_lt_is_Some. rewrite Hlen. by eapply lookup_lt_Some. }
    rewrite (nth_lookup_Some _ _ _ _ Hv).
    rewrite Forall_forall in Hvals.
    rewrite (filter_none _ [v]); [simpl; lia|].
    intros x ->%list_elem_of_singleton.
    rewrite (Hvals v) by (by eapply list_elem_of_lookup_2). done.
  - apply lookup_ge_None in Hr.
    rewrite (proj2 (lookup_ge_None _ _)); [done|]. by rewrite set_column_rows_length.
Qed.

Lemma null_counts_not_na d : Forall (fun v => isna v = false) (null_counts d).
Proof. unfold null_counts. apply Forall_forall. by intros v (r & -> & _)%list_elem_of_fmap. Qed.

Lemma null_counts_length d : length (null_counts d) = length (rows d).
Proof. apply length_map. Qed.
Lemma flags_of_length dup : length (flags_of dup) = length dup.
Proof. apply length_map. Qed.

Lemma flagged_frame_settled self fd fd' :
  wf_frame fd = true → columns fd ≠ [] →
  "duplicates" ∉ columns fd → "null" ∉ columns fd →
  unique_identifiers self ⊆ columns fd →
  flagged_frame self fd = Ok fd' → flagged_frame self fd' = Ok fd'.
Proof.
  intros Hwf Hne Hnd Hnn Hsub. unfold flagged_frame.
  assert (col_pos "duplicates" (columns fd) = None) as Hpd by (by apply col_pos_None).
  assert (col_pos "null" (columns fd) = None) as Hpn by (by apply col_pos_None).
  destruct (bool_decide ("duplicates" ∈ methods self)) eqn:Hd;
    destruct (bool_decide ("null" ∈ methods self)) eqn:Hn.
  - destruct (duplicated (unique_identifiers self) fd) as [dup|e] eqn:Hdup; [|done].
    simpl. intros [= <-].
    set (fd1 := set_column "duplicates" (flags_of dup) fd).
    pose proof (set_column_wf "duplicates" (flags_of dup) fd Hwf) as Hwf1. fold fd1 in Hwf1.
    destruct (set_column_new "duplicates" (flags_of dup) fd Hpd) as [Hc1 _]. fold fd1 in Hc1.
    assert (col_pos "null" (columns fd1) = None) as Hpn1.
    { apply col_pos_None. rewrite Hc1.
      intros [?|[=]%list_elem_of_singleton]%elem_of_app. done. }
    assert (length (flags_of dup) = length (rows fd)) as Hlen
      by (rewrite flags_of_length; by eapply duplicated_length).
    assert (column "duplicates" fd1 = Some (flags_of dup)) as Hcd
      by (by apply column_set_column_new).
    set (fd2 := set_column "null" (null_counts fd1) fd1).
    assert (duplicated (unique_identifiers self) fd2 = Ok dup) as ->.
    { unfold fd2. rewrite duplicated_set_column_new; [| done | | by apply col_pos_None |].
      - unfold fd1. by rewrite duplicated_set_column_new.
      - rewrite Hc1. by destruct (columns fd).
      - intros c Hc. rewrite Hc1. apply elem_of_app. left. by apply Hsub. }
    simpl.
    assert (set_column "duplicates" (flags_of dup) fd2 = fd2) as ->.
    { apply set_column_same. unfold fd2.
      by rewrite column_set_column_new_other. }
    f_equal. unfold fd2 at 1.
    rewrite null_counts_set_column_new;
      [| done | apply null_counts_length | apply null_counts_not_na].
    apply set_column_same. unfold fd2.
    apply column_set_column_new; [done | done | apply null_counts_length].
  - destruct (duplicated (unique_identifiers self) fd) as [dup|e] eqn:Hdup; [|done].
    simpl. intros [= <-].
    rewrite duplicated_set_column_new by done. rewrite Hdup. simpl. f_equal.
    apply set_column_same. apply column_set_column_new; [done | done |].
    rewrite flags_of_length. by eapply duplicated_length.
  - simpl. intros [= <-]. f_equal.
    rewrite null_counts_set_column_new;
      [| done | apply null_counts_length | apply null_counts_not_na].
    apply set_column_same.
    apply column_set_column_new; [done | done | apply null_counts_length].
  - simpl. by intros [= <-].
Qed.

Lemma flag_internal_inv self h fd sd fl self1 h1 :
  h !! flagged self = Some fd → h !! df self = Some sd →
  flag self ArgNone h = (Ok (fl, self1), h1) →
  columns fd ≠ [] ∧ fl = flagged self ∧ self1 = self ∧
  ∃ fd', flagged_frame self fd = Ok fd' ∧ h1 = <[flagged self := fd']> h.
Proof.
  intros Hf Hs Hflag.
  assert (columns fd ≠ []) as Hne.
  { intros E. revert Hflag.
    unfold flag, __self_or_none__, bind, ret, deref, lift. rewrite Hf.
    unfold Pandas.describe. simpl. by rewrite E. }
  split; [done|].
  destruct (flagged_frame self fd) as [fd'|e] eqn:Hfl.
  - destruct (flag_ok self ArgNone h fd sd fd' Hf Hs Hne Hfl) as (self' & h' & H & -> & ->).
    rewrite H in Hflag. simpl in Hflag. injection Hflag as <- <- <-.
    split; [done|]. split; [by destruct self|]. by exists fd'.
  - rewrite (flag_err self ArgNone h fd sd e Hf Hs Hne Hfl) in Hflag. done.
Qed.

(** X8: When the instance's flagged table has distinct column labels,
    carries the identifier columns and has no column named [duplicates]
    or [null] of its own, flagging it a second time changes nothing:
    after a first [flag()] that returned, a second [flag()] returns the
    same object and leaves every table as the first call left it. *)
Theorem flag_twice_changes_nothing self h fd sd fl self1 h1 :
  h !! flagged self = Some fd → h !! df self = Some sd →
  wf_frame fd = true →
  "duplicates" ∉ columns fd → "null" ∉ columns fd →
  unique_identifiers self ⊆ columns fd →
  flag self ArgNone h = (Ok (fl, self1), h1) →
  flag self1 ArgNone h1 = (Ok (fl, self1), h1).
Proof.
  intros Hf Hs Hwf Hnd Hnn Hsub Hflag.
  destruct (flag_internal_inv _ _ _ _ _ _ _ Hf Hs Hflag)
    as (Hcols & -> & -> & fd' & Hfl & ->).
  assert (flagged self < length h)%nat as Hlt by (by eapply lookup_lt_Some).
  assert (<[flagged self := fd']> h !! flagged self = Some fd') as Hf'
    by (by apply list_lookup_insert_eq).
  assert (∃ sd', <[flagged self := fd']> h !! df self = Some sd') as [sd' Hs'].
  { destruct (decide (df self = flagged self)) as [->|Hne]; [by exists fd'|].
    exists sd. by rewrite list_lookup_insert_ne. }
  assert (columns fd' ≠ []) as Hcols'.
  { revert Hfl. unfold flagged_frame.
    destruct (bool_decide ("duplicates" ∈ methods self)),
             (bool_decide ("null" ∈ methods self));
      try destruct (duplicated _ fd); simpl; try done; intros [= <-]; try done;
      unfold set_column; repeat (destruct (col_pos _ _); simpl);
      try done; by destruct (columns fd). }
  pose proof (flagged_frame_settled _ _ _ Hwf Hcols Hnd Hnn Hsub Hfl) as Hfl'.
  destruct (flag_ok self ArgNone _ fd' sd' fd' Hf' Hs' Hcols' Hfl')
    as (self' & h' & H & -> & ->).
  rewrite H. simpl. f_equal; [f_equal; f_equal; by destruct self|].
  by rewrite list_insert_insert_eq.
Qed.

(** X8 at a concrete input. *)
Lemma flag_twice_changes_nothing_witness :
  flag (instance_with ["x"]) ArgNone
    [two_rows;
     mkDataFrame ["id"; "x"; "duplicates"; "null"]
       [mkRow 0 [VStr "a"; VStr "p"; VInt 0; VInt 0];
        mkRow 1 [VStr "b"; VStr "q"; VInt 0; VInt 0]]]
  = (Ok (1%nat, instance_with ["x"]),
     [two_rows;
      mkDataFrame ["id"; "x"; "duplicates"; "null"]
        [mkRow 0 [VStr "a"; VStr "p"; VInt 0; VInt 0];
         mkRow 1 [VStr "b"; VStr "q"; VInt 0; VInt 0]]]).
Proof.
  apply (flag_twice_changes_nothing (instance_with ["x"]) [two_rows; two_rows]
           two_rows two_rows).
  - reflexivity.
  - reflexivity.
  - vm_compute. reflexivity.
  - intros H%list_elem_of_In. simpl in H. intuition discriminate.
  - intros H%list_elem_of_In. simpl in H. intuition discriminate.
  - intros c Hc%list_elem_of_In. apply list_elem_of_In. simpl in *. tauto.
  - vm_compute. reflexivity.
Defined.
Lemma append_row_columns_general fd labels :
  description_columns (append_row (counts fd) labels)
  = columns fd ++ filter (fun c => c ∉ columns fd) labels.
Proof.
  unfold append_row, description_columns. rewrite map_app, map_map. simpl.
  rewrite map_id. fold (description_columns (counts fd)).
  by rewrite description_columns_counts.
Qed.

Lemma loc_count_app_l c (l1 l2 : Description) :
  c ∈ description_columns l1 → loc_count c (l1 ++ l2) = loc_count c l1.
Proof.
  unfold description_columns.
  induction l1 as [|[c1 n1] l1 IH]; simpl; [by intros ?%not_elem_of_nil|].
  destruct (String.eqb_spec c c1) as [->|Hne]; [done|].
  intros [?|?]%elem_of_cons; [done | by apply IH].
Qed.

Lemma loc_count_app_r c (l1 l2 : Description) :
  c ∉ description_columns l1 → loc_count c (l1 ++ l2) = loc_count c l2.
Proof.
  unfold description_columns.
  induction l1 as [|[c1 n1] l1 IH]; simpl; [done|].
  intros [Hne Hc]%not_elem_of_cons.
  destruct (String.eqb_spec c c1) as [->|_]; [done | by apply IH].
Qed.

Lemma loc_count_all_none c (l : list string) :
  loc_count c (map (fun c => (c, None)) l) = None.
Proof. induction l as [|x l IH]; simpl; [done|]. by destruct (String.eqb c x). Qed.

(** X9: On tables with distinct column labels, [describe] returns, for
    every column of the described table, its number of non-null cells;
    the columns of the instance's table that the described table lacks
    are listed after them, in the order they have in the instance's
    table, with no count.  The instance's description is replaced only
    when no dataframe is given, and no existing table is changed. *)
Theorem describe_reports_non_null_counts self a h fd sd :
  target self a h = Some fd → h !! df self = Some sd →
  wf_frame fd = true → wf_frame sd = true → columns fd ≠ [] →
  ∃ desc self',
    describe self a h = (Ok (desc, self'), (resolved self a h fd).2) ∧
    description_columns desc
    = columns fd ++ filter (fun c => c ∉ columns fd) (columns sd) ∧
    (∀ c, c ∈ columns fd → loc_count c desc = Some (non_null_count c fd)) ∧
    (∀ c, c ∈ columns sd → c ∉ columns fd → loc_count c desc = None) ∧
    description self' = (if is_none a then desc else description self) ∧
    flagged self' = flagged self ∧ df self' = df self ∧
    objects_kept h (resolved self a h fd).2.
Proof.
  intros Ht Hs _ _ Hne. unfold describe, bind.
  rewrite (self_or_none_ok _ _ _ _ _ Ht Hs Hne). unfold ret.
  eexists _, _. split; [reflexivity|].
  split; [apply append_row_columns_general|]. split; [|split; [|split; [|split; [|split]]]].
  - intros c Hc. unfold append_row.
    rewrite loc_count_app_l by (by rewrite description_columns_counts).
    unfold counts.
    rewrite (loc_count_map (fun c => Some (count_of c (replace fd)))) by done.
    by rewrite count_of_replace.
  - intros c _ Hc. unfold append_row.
    rewrite loc_count_app_r by (by rewrite description_columns_counts).
    apply loc_count_all_none.
  - by destruct a.
  - by destruct a.
  - by destruct a.
  - intros r0 d0. apply resolved_frame.
Qed.

(** X9 at an instance over [three_columns], describing [only_ids]. *)
Lemma describe_reports_non_null_counts_witness :
  ∃ desc self',
    describe (instance_with ["z"; "x"]) (ArgDataFrame 2)
      [three_columns; three_columns; only_ids]
    = (Ok (desc, self'), [three_columns; three_columns; only_ids; only_ids]) ∧
    description_columns desc
    = columns only_ids ++ filter (fun c => c ∉ columns only_ids) (columns three_columns) ∧
    (∀ c, c ∈ columns only_ids → loc_count c desc = Some (non_null_count c only_ids)) ∧
    (∀ c, c ∈ columns three_columns → c ∉ columns only_ids → loc_count c desc = None) ∧
    description self' = description (instance_with ["z"; "x"]) ∧
    flagged self' = 1%nat ∧ df self' = 0%nat ∧
    objects_kept [three_columns; three_columns; only_ids]
      [three_columns; three_columns; only_ids; only_ids].
Proof.
  apply (describe_reports_non_null_counts (instance_with ["z"; "x"]) (ArgDataFrame 2)
           [three_columns; three_columns; only_ids] only_ids three_columns).
  - reflexivity.
  - reflexivity.
  - vm_compute. reflexivity.
  - vm_compute. reflexivity.
  - discriminate.
Defined.




Lemma check_with_headers_missing keys d key :
  key ∈ keys → key ∉ columns d →
  __check_with_headers__ keys d = Err (Exception not_in_headers).
Proof.
  intros Hk Hn. unfold __check_with_headers__.
  assert (existsb (fun key => bool_decide (key ∉ columns d)) keys = true) as ->; [|done].
  apply existsb_exists. exists key. split; [by apply list_elem_of_In|].
  by apply bool_decide_eq_true.
Qed.

(** X12: A key of [columns_dtypes] that is not a column of the table makes
    [values_format] raise the header exception before any value is
    converted: no table is changed. *)
Theorem values_format_unknown_column repr_float self cd a fill h d key :
  h !! format_target self a = Some d → key ∈ map fst cd → key ∉ columns d →
  values_format repr_float self cd a fill h = (Err (Exception not_in_headers), h).
Proof.
  intros Hd Hk Hn. unfold values_format. fold (format_target self a).
  unfold bind at 1, deref at 1. rewrite Hd.
  unfold bind at 1, lift at 1. by rewrite (check_with_headers_missing _ _ _ Hk Hn).
Qed.

(** X12 at a concrete input. *)
Lemma values_format_unknown_column_witness :
  values_format repr_unused (instance_with []) [("n", "int"); ("m", "str")] ArgNone
    (VStr "0") [missing_number; missing_number]
  = (Err (Exception not_in_headers), [missing_number; missing_number]).
Proof.
  apply (values_format_unknown_column repr_unused (instance_with [])
           [("n", "int"); ("m", "str")] ArgNone (VStr "0")
           [missing_number; missing_number] missing_number "m").
  - reflexivity.
  - apply list_elem_of_In. simpl. tauto.
  - intros H%list_elem_of_In. simpl in H. intuition discriminate.
Defined.

(** X13: With the default [fill_empty] of [None], [values_format] never
    returns a table: whatever the table and the mapping, the call ends
    in an exception (at the latest in the final [fillna], which refuses
    a missing fill value). *)
Theorem values_format_needs_a_fill_value repr_float self cd a h :
  ∃ e, (values_format repr_float self cd a VNone h).1 = Err e.
Proof.
  unfold values_format. fold (format_target self a).
  unfold bind at 1, deref at 1.
  destruct (h !! format_target self a) as [d|]; [|by eexists].
  unfold bind at 1, lift at 1.
  destruct (__check_with_headers__ _ d) as [[]|e]; [|by eexists].
  unfold bind at 1.
  destruct (format_columns repr_float _ VNone cd h) as [[u|e] h']; [|by eexists].
  unfold bind at 1, deref at 1.
  destruct (h' !! format_target self a) as [d'|]; [|by eexists].
  by eexists.
Qed.

Lemma format_columns_app repr_float r fill cd1 cd2 h :
  format_columns repr_float r fill (cd1 ++ cd2) h =
  (do _ <- format_columns repr_float r fill cd1 ;;
   format_columns repr_float r fill cd2) h.
Proof.
  revert h. induction cd1 as [|[c t] cd1 IH]; intros h; [done|].
  cbn [format_columns app]. unfold bind in *.
  destruct (deref r h) as [[d|e] h0]; [|done].
  destruct (lift _ h0) as [[vals|e] h1]; [|done].
  destruct (store r _ h1) as [[u|e] h2]; [|done].
  apply IH.
Qed.



(** X15: When the conversion of a column fails, [values_format] raises
    that error and the columns converted before it stay converted: the
    table is left as the loop had made it up to the failing column. *)
Theorem values_format_keeps_earlier_conversions
    repr_float self cd1 c t cd2 a fill h d u h1 d1 vs e :
  h !! format_target self a = Some d →
  __check_with_headers__ (map fst (cd1 ++ (c, t) :: cd2)) d = Ok tt →
  format_columns repr_float (format_target self a) fill cd1 h = (Ok u, h1) →
  h1 !! format_target self a = Some d1 → column c d1 = Some vs →
  rmapM (fun x => dtype_change repr_float fill x c t) vs = Err e →
  values_format repr_float self (cd1 ++ (c, t) :: cd2) a fill h = (Err e, h1).
Proof.
  intros Hd Hchk Hfmt Hd1 Hvs Herr. unfold values_format. fold (format_target self a).
  unfold bind at 1, deref at 1. rewrite Hd.
  unfold bind at 1, lift at 1. rewrite Hchk.
  unfold bind at 1. rewrite format_columns_app. unfold bind at 1. rewrite Hfmt.
  simpl. unfold bind at 1, deref at 1. rewrite Hd1.
  unfold bind at 1, lift at 1. by rewrite Hvs, Herr.
Qed.

(** X15 at a concrete input. *)
Lemma values_format_keeps_earlier_conversions_witness :
  values_format repr_unused (instance_with []) ([("b", "yn")] ++ ("n", "yn") :: [])
    ArgNone (VStr "-")
    [mkDataFrame ["n"; "b"] [mkRow 0 [VInt 3; VBool true]]]
  = (Err (Exception "n int 3 not converted into yn"),
     [mkDataFrame ["n"; "b"] [mkRow 0 [VInt 3; VStr "Yes"]]]).
Proof.
  apply (values_format_keeps_earlier_conversions repr_unused (instance_with [])
           [("b", "yn")] "n" "yn" [] ArgNone (VStr "-")
           [mkDataFrame ["n"; "b"] [mkRow 0 [VInt 3; VBool true]]]
           (mkDataFrame ["n"; "b"] [mkRow 0 [VInt 3; VBool true]]) tt
           [mkDataFrame ["n"; "b"] [mkRow 0 [VInt 3; VStr "Yes"]]]
           (mkDataFrame ["n"; "b"] [mkRow 0 [VInt 3; VStr "Yes"]]) [VInt 3]).
  - reflexivity.
  - vm_compute. reflexivity.
  - vm_compute. reflexivity.
  - reflexivity.
  - reflexivity.
  - reflexivity.
Defined.
(** X16: On ASCII text and on integers and numeric text within the
    interpreter's limit on the digits of a conversion between [int] and
    [str], [dtype_change] raises in two cases only: an int asked to
    become a float that [float] cannot represent, and an int or a
    non-NaN float for which no conversion applies (tag other than
    [str]; for a float also other than [int], unless the float is not
    whole), where the exception carries the column, the current type,
    the value and the tag.  Such strings, booleans and empty values
    never raise. *)
Theorem dtype_change_raises_iff repr_float fill v c t e :
  within_limits v →
  dtype_change repr_float fill v c t = Err e ↔
  (∃ z, v = VInt z ∧ t = "float" ∧ float_of_int z = Err e) ∨
  (e = not_converted c (type_name v) (py_str repr_float v) t ∧ t ≠ "str" ∧
   ((∃ z, v = VInt z ∧ t ≠ "int" ∧ t ≠ "float") ∨
    (∃ f, v = VFloat f ∧ is_nan f = false ∧ t ≠ "float" ∧
          (t = "int" → is_integer f = false)))).
Proof.
  intros _. unfold dtype_change. split.
  - destruct v as [|s|b|z|f]; cbn [is_empty_value type_name]; try done.
    + destruct (String.eqb s EmptyString); [done|].
      destruct (String.eqb_spec "str" t); [done|].
      repeat (match goal with |- context [if ?b then _ else _] => destruct b end; try done).
    + destruct (String.eqb_spec "bool" t); [done|].
      repeat (match goal with |- context [if ?b then _ else _] => destruct b end; try done).
    + destruct (String.eqb_spec "int" t) as [|Hi]; [done|].
      destruct (String.eqb_spec t "float") as [->|Hf].
      * destruct (float_of_int z) as [f|e'] eqn:Ef; [done|]. intros [= <-].
        left. by exists z.
      * destruct (String.eqb_spec t "str") as [|Hs]; [done|]. intros [= <-].
        right. split; [done|]. split; [done|]. left. exists z. repeat split; congruence.
    + destruct (is_nan f) eqn:En; [done|].
      destruct (String.eqb_spec "float" t) as [|Hf]; [done|].
      destruct (String.eqb_spec t "int") as [->|Hi]; cbn [andb].
      * destruct (is_integer f) eqn:Ei; [done|]. cbn. intros [= <-].
        right. split; [done|]. split; [done|]. right. exists f. repeat split; try done.
      * destruct (String.eqb_spec t "str") as [|Hs]; [done|]. intros [= <-].
        right. split; [done|]. split; [done|]. right. exists f. repeat split; congruence.
  - intros [(z & -> & -> & Hz)|(-> & Hs & [(z & -> & Hi & Hf)|(f & -> & Hn & Hf & Hi)])].
    + cbn. by rewrite Hz.
    + cbn [is_empty_value type_name].
      destruct (String.eqb_spec "int" t); [congruence|].
      destruct (String.eqb_spec t "float"); [congruence|].
      by destruct (String.eqb_spec t "str").
    + cbn [is_empty_value type_name]. rewrite Hn.
      destruct (String.eqb_spec "float" t); [congruence|].
      destruct (String.eqb_spec t "str"); [congruence|].
      destruct (String.eqb_spec t "int") as [Ht|]; [|done].
      by rewrite (Hi Ht).
Qed.

(** X16 at the int 3 of a column [n] with the tag [yn]. *)
Lemma dtype_change_raises_iff_witness :
  dtype_change repr_unused (VStr "-") (VInt 3) "n" "yn"
  = Err (Exception "n int 3 not converted into yn") ↔
  (∃ z, VInt 3 = VInt z ∧ "yn" = "float" ∧
        float_of_int z = Err (Exception "n int 3 not converted into yn")) ∨
  (Exception "n int 3 not converted into yn"
   = not_converted "n" (type_name (VInt 3)) (py_str repr_unused (VInt 3)) "yn" ∧
   "yn" ≠ "str" ∧
   ((∃ z, VInt 3 = VInt z ∧ "yn" ≠ "int" ∧ "yn" ≠ "float") ∨
    (∃ f, VInt 3 = VFloat f ∧ is_nan f = false ∧ "yn" ≠ "float" ∧
          ("yn" = "int" → is_integer f = false)))).
Proof.
  apply (dtype_change_raises_iff repr_unused (VStr "-") (VInt 3) "n" "yn"
           (Exception "n int 3 not converted into yn")).
  vm_compute. reflexivity.
Defined.

(** X17: A non-empty value that [dtype_change] returns for is either
    returned unchanged (its type is the requested one, or it is a string
    or a boolean), or converted to a value of the requested type [int],
    [float] or [str], or, under the tag [yn], turned into the text
    [Yes] or [No]. *)
Theorem dtype_change_result repr_float fill v c t y :
  is_empty_value v = false →
  dtype_change repr_float fill v c t = Ok y →
  (y = v ∧ (type_name v = t ∨ type_name v = "str" ∨ type_name v = "bool")) ∨
  (type_name y = t ∧ type_name v ≠ t ∧ (t = "int" ∨ t = "float" ∨ t = "str")) ∨
  (t = "yn" ∧ (y = VStr "Yes" ∨ y = VStr "No")).
Proof.
  intros He. unfold dtype_change. rewrite He.
  destruct (String.eqb_spec (type_name v) t) as [Ht|Ht]; [intros [= <-]; left; tauto|].
  destruct v as [|s|b|z|f]; try done.
  - destruct (String.eqb_spec t "int") as [->|Hi]; cbn [andb].
    + destruct (isnumeric s); [intros [= <-]; right; left; tauto|].
      cbn. intros [= <-]. left. cbn. tauto.
    + destruct (String.eqb_spec t "float") as [->|Hf]; cbn [andb].
      * destruct (isdecimal s); [intros [= <-]; right; left; tauto|].
        cbn. intros [= <-]. left. cbn. tauto.
      * destruct (String.eqb_spec t "yn") as [->|Hy]; [|intros [= <-]; left; cbn; tauto].
        destruct (_ || _); [intros [= <-]; right; right; tauto|].
        destruct (_ || _); [intros [= <-]; right; right; tauto|].
        intros [= <-]. left. cbn. tauto.
  - destruct (String.eqb_spec t "yn") as [->|Hy]; [|intros [= <-]; left; cbn; tauto].
    destruct b; intros [= <-]; right; right; tauto.
  - destruct (String.eqb_spec t "float") as [->|Hf].
    + destruct (float_of_int z); [|done]. intros [= <-]. right. left. tauto.
    + destruct (String.eqb_spec t "str") as [->|Hs]; [|done].
      intros [= <-]. right. left. tauto.
  - destruct (String.eqb_spec t "int") as [->|Hi]; cbn [andb].
    + destruct (is_integer f); [intros [= <-]; right; left; tauto|]. done.
    + destruct (String.eqb_spec t "str") as [->|Hs]; [|done].
      intros [= <-]. right. left. tauto.
Qed.

(** X17 at a concrete input. *)
Lemma dtype_change_result_witness :
  (VInt 12 = VStr "12" ∧
   (type_name (VStr "12") = "int" ∨ type_name (VStr "12") = "str" ∨
    type_name (VStr "12") = "bool")) ∨
  (type_name (VInt 12) = "int" ∧ type_name (VStr "12") ≠ "int" ∧
   ("int" = "int" ∨ "int" = "float" ∨ "int" = "str")) ∨
  ("int" = "yn" ∧ (VInt 12 = VStr "Yes" ∨ VInt 12 = VStr "No")).
Proof.
  apply (dtype_change_result repr_unused (VStr "-") (VStr "12") "n" "int" (VInt 12)).
  - reflexivity.
  - reflexivity.
Defined.
#[local] Ltac digit_arith :=
  match goal with
  | |- context [nat_of_ascii ?c] =>
      let n := eval vm_compute in (Z.of_nat (nat_of_ascii c)) in
      change (Z.of_nat (nat_of_ascii c)) with n; lia
  end.

Lemma digits_value_pos d acc :
  digits_value (Z.pos acc) (NilEmpty.string_of_uint d) = Z.pos (Pos.of_uint_acc d acc).
Proof.
  revert acc. induction d; intros acc; cbn [NilEmpty.string_of_uint digits_value Pos.of_uint_acc];
    [done|..];
    match goal with
    | |- digits_value ?a _ = Z.pos (Pos.of_uint_acc _ ?p) =>
        replace a with (Z.pos p) by digit_arith
    end; apply IHd.
Qed.

Lemma digits_value_zero d :
  digits_value 0 (NilEmpty.string_of_uint d) = Z.of_N (Pos.of_uint d).
Proof.
  induction d; cbn [NilEmpty.string_of_uint digits_value Pos.of_uint]; [done|exact IHd|..];
    match goal with
    | |- digits_value ?a _ = Z.of_N (N.pos (Pos.of_uint_acc _ ?p)) =>
        replace a with (Z.pos p) by digit_arith
    end; apply digits_value_pos.
Qed.

Lemma all_digits_string_of_uint d : all_digits (NilEmpty.string_of_uint d) = true.
Proof. induction d; cbn [NilEmpty.string_of_uint all_digits]; [done|..]; exact IHd. Qed.

Lemma str_of_int_pos p :
  str_of_int (Z.pos p) = NilEmpty.string_of_uint (Pos.to_uint p) ∧
  isnumeric (str_of_int (Z.pos p)) = true.
Proof.
  unfold str_of_int. cbn [Z.to_int NilZero.string_of_int].
  pose proof (DecimalPos.Unsigned.to_uint_nonnil p) as Hn.
  pose proof (all_digits_string_of_uint (Pos.to_uint p)) as Ha.
  destruct (Pos.to_uint p); try done.
Qed.

Lemma int_of_str_of_int z : 0 ≤ z → int_of_str (str_of_int z) = z.
Proof.
  intros Hz. destruct z as [|p|p]; [done| |lia].
  rewrite (proj1 (str_of_int_pos p)). unfold int_of_str.
  by rewrite digits_value_zero, DecimalPos.Unsigned.of_to.
Qed.

(** X18: An int within the interpreter's limit on the digits of a
    conversion between [int] and [str] becomes its decimal text under
    the tag [str]; converting that text with the tag [int] gives the
    int back when it is not negative, and leaves the text as it is when
    it is negative (a leading minus sign is not numeric). *)
Theorem int_to_text_and_back repr_float fill c z :
  within_limits (VInt z) →
  dtype_change repr_float fill (VInt z) c "str" = Ok (VStr (str_of_int z)) ∧
  dtype_change repr_float fill (VStr (str_of_int z)) c "int"
  = Ok (if 0 <=? z then VInt z else VStr (str_of_int z)).
Proof.
  intros _. split; [done|]. unfold dtype_change.
  assert (is_empty_value (VStr (str_of_int z)) = false) as ->.
  { cbn. pose proof (str_of_int_nonempty z) as Hne.
    by destruct (String.eqb_spec (str_of_int z) EmptyString). }
  cbn [type_name]. change (String.eqb "str" "int") with false.
  change (String.eqb "int" "int") with true. cbn [andb]. cbv beta iota.
  destruct z as [|p|p]; [done| |done].
  rewrite (proj2 (str_of_int_pos p)). by rewrite int_of_str_of_int.
Qed.

(** X18 at the ints 2024 and -5. *)
Lemma int_to_text_and_back_witness :
  (dtype_change repr_unused (VStr "-") (VInt 2024) "n" "str" = Ok (VStr (str_of_int 2024)) ∧
   dtype_change repr_unused (VStr "-") (VStr (str_of_int 2024)) "n" "int"
   = Ok (if 0 <=? 2024 then VInt 2024 else VStr (str_of_int 2024))) ∧
  (dtype_change repr_unused (VStr "-") (VInt (-5)) "n" "str" = Ok (VStr (str_of_int (-5))) ∧
   dtype_change repr_unused (VStr "-") (VStr (str_of_int (-5))) "n" "int"
   = Ok (if 0 <=? -5 then VInt (-5) else VStr (str_of_int (-5)))).
Proof.
  split.
  - apply (int_to_text_and_back repr_unused (VStr "-") "n" 2024). vm_compute. reflexivity.
  - apply (int_to_text_and_back repr_unused (VStr "-") "n" (-5)). vm_compute. reflexivity.
Defined.
